(** * Kiosk front-end end-to-end scripts (testsprite_tests/TC*.py)

    Every file of the repository is one generated Playwright script: a module
    that imports [asyncio] and [playwright.async_api], defines the coroutine
    [run_test] and runs it.  Lines 1-47 are byte-identical in the thirteen
    files (session bootstrap, first navigation, load-state waits); the files
    differ only in the straight-line list of statements that follows and end
    with the same [finally] block.

    The embedding keeps that structure:
    - the Python fragment the scripts use (exceptions, [try]/[except],
      [try]/[finally], name lookup) is a state-and-exception monad [M];
    - the Playwright runtime is a parameter [runtime]: an oracle that, given
      the calls made so far and their outcomes, decides whether the next
      awaited call returns or raises;
    - every awaited call is recorded, with its outcome, in a log;
    - the statements that follow the bootstrap are transcribed, per file, as
      values of [stmt]. *)

From Stdlib Require Import List String Ascii ZArith Bool Lia.
Import ListNotations.
Open Scope string_scope.
Open Scope list_scope.

(** ** Python values and exceptions *)

Inductive value : Type :=
| VNone
| VObject (cls : string).

(** [if x:] on the three local variables of [run_test]. *)
Definition truthy (v : value) : bool :=
  match v with
  | VNone => false
  | VObject _ => true
  end.

(** What an awaited Playwright call raises: [async_api.Error] or its subclass
    [async_api.TimeoutError]. *)
Inductive pw_failure : Type :=
| PwError (msg : string)
| PwTimeoutError (msg : string).

Definition failure_message (f : pw_failure) : string :=
  match f with
  | PwError m => m
  | PwTimeoutError m => m
  end.

Inductive exn : Type :=
| SyntaxError
| NameError (name : string)
| IndexError
| AssertionError (msg : string)
| PlaywrightError (f : pw_failure).

(** [except async_api.Error:] *)
Definition isinstance_Error (e : exn) : bool :=
  match e with
  | PlaywrightError _ => true
  | _ => false
  end.

(** [except AssertionError:] *)
Definition isinstance_AssertionError (e : exn) : bool :=
  match e with
  | AssertionError _ => true
  | _ => false
  end.

(** [str(e)] *)
Definition exn_message (e : exn) : string :=
  match e with
  | SyntaxError => "invalid syntax"
  | NameError n => ("name '" ++ n ++ "' is not defined")%string
  | IndexError => "list index out of range"
  | AssertionError m => m
  | PlaywrightError f => failure_message f
  end.

Inductive result (A : Type) : Type :=
| Ok (a : A)
| Raise (e : exn).
Arguments Ok {A} a.
Arguments Raise {A} e.

(** ** The calls a script makes *)

Inductive event : Type :=
| EPlaywrightStart
| ELaunch (headless : bool) (args : list string)
| ENewContext
| ESetDefaultTimeout (ms : Z)
| ENewPage
| EGoto (url wait_until : string) (timeout : Z)
| EPageWaitLoadState (st : string) (timeout : Z)
| EFrameWaitLoadState (frame : nat) (st : string) (timeout : Z)
| ELastPage
| EWaitForTimeout (ms : Z)
| EClick (selector : string) (nth : nat) (timeout : Z)
| EToBeVisible (selector : string) (timeout : Z)
| ESleep (seconds : Z)
| EContextClose
| EBrowserClose
| EPlaywrightStop.

Inductive outcome : Type :=
| Returned
| Failed (f : pw_failure).

Definition entry : Type := (event * outcome)%type.

(** The automation runtime and the application under test, as seen from a
    script: [rt_call log e] is the outcome of the awaited call [e] after the
    calls in [log]; [rt_frames log] is [len(page.frames)] at that point.
    [ELastPage] stands for the evaluation of [context.pages[-1]], which is
    not awaited and fails, with [IndexError], when the context has no page
    left. *)
Record runtime : Type := {
  rt_call : list entry -> event -> outcome;
  rt_frames : list entry -> nat
}.

(** ** Statements after the bootstrap *)

Inductive stmt : Type :=
| SGoto (url wait_until : string) (timeout : Z)
    (* await page.goto(url, wait_until=..., timeout=...) *)
| SClick (selector : string) (nth : nat) (grace : Z) (timeout : Z)
    (* frame = context.pages[-1]
       elem = frame.locator(selector).nth(nth)
       await page.wait_for_timeout(grace); await elem.click(timeout=timeout) *)
| SFence
    (* a line holding three backquotes; in the two files that have them,
       the first stands between [frame = context.pages[-1]] and [try:],
       the second after the [raise] *)
| SAssertVisible (fn selector : string) (timeout : Z) (msg : string)
    (* frame = context.pages[-1]
       try:
           await fn(frame.locator(selector).first).to_be_visible(timeout=timeout)
       except AssertionError:
           raise AssertionError(msg) *)
| SSleep (seconds : Z).
    (* await asyncio.sleep(seconds) *)

Record script : Type := {
  sc_file : string;
  sc_globals : list string;   (* names bound by the imports and the def *)
  sc_body : list stmt
}.

(** Python 3 has no backquote token: a file with such a line is rejected by
    the parser before any of its statements runs. *)
Definition stmt_parses (st : stmt) : bool :=
  match st with
  | SFence => false
  | _ => true
  end.

Definition parses (sc : script) : bool := forallb stmt_parses (sc_body sc).

(** Local names of [run_test] and the builtin names; a name that is in none
    of these and not a module global raises [NameError]. *)
Definition run_test_locals : list string :=
  ["pw"; "browser"; "context"; "page"; "frame"; "elem"].

Definition builtins : list string :=
  ["abs"; "aiter"; "all"; "anext"; "any"; "ascii"; "bin"; "bool";
   "breakpoint"; "bytearray"; "bytes"; "callable"; "chr"; "classmethod";
   "compile"; "complex"; "delattr"; "dict"; "dir"; "divmod"; "enumerate";
   "eval"; "exec"; "filter"; "float"; "format"; "frozenset"; "getattr";
   "globals"; "hasattr"; "hash"; "help"; "hex"; "id"; "input"; "int";
   "isinstance"; "issubclass"; "iter"; "len"; "list"; "locals"; "map";
   "max"; "memoryview"; "min"; "next"; "object"; "oct"; "open"; "ord";
   "pow"; "print"; "property"; "range"; "repr"; "reversed"; "round"; "set";
   "setattr"; "slice"; "sorted"; "staticmethod"; "str"; "sum"; "super";
   "tuple"; "type"; "vars"; "zip"; "__import__";
   "None"; "True"; "False"; "Ellipsis"; "NotImplemented";
   "BaseException"; "Exception"; "ArithmeticError"; "AssertionError";
   "AttributeError"; "BufferError"; "EOFError"; "ImportError";
   "IndexError"; "KeyError"; "KeyboardInterrupt"; "LookupError";
   "MemoryError"; "ModuleNotFoundError"; "NameError";
   "NotImplementedError"; "OSError"; "OverflowError"; "RecursionError";
   "ReferenceError"; "RuntimeError"; "StopAsyncIteration";
   "StopIteration"; "SyntaxError"; "SystemError"; "SystemExit";
   "TimeoutError"; "TypeError"; "UnboundLocalError"; "ValueError";
   "ZeroDivisionError"].

Definition name_bound (globals : list string) (name : string) : bool :=
  existsb (String.eqb name) (run_test_locals ++ globals ++ builtins).

(** ** State and the monad *)

(** The three local variables the [finally] block tests, and the log. *)
Record state : Type := {
  v_pw : value;
  v_browser : value;
  v_context : value;
  st_log : list entry
}.

(** Lines 5-7: [pw = None], [browser = None], [context = None]. *)
Definition init_state : state :=
  {| v_pw := VNone; v_browser := VNone; v_context := VNone; st_log := [] |}.

Definition M (A : Type) : Type := state -> result A * state.

Definition ret {A} (a : A) : M A := fun s => (Ok a, s).

Definition raise {A} (e : exn) : M A := fun s => (Raise e, s).

Definition bind {A B} (m : M A) (k : A -> M B) : M B :=
  fun s =>
    match m s with
    | (Ok a, s') => k a s'
    | (Raise e, s') => (Raise e, s')
    end.

Notation "x <- m ;; k" := (bind m (fun x => k))
  (at level 61, m at next level, right associativity).
Notation "m ;; k" := (bind m (fun _ => k))
  (at level 61, right associativity).

(** [try: body / except C: handler], where [catches] is [isinstance(_, C)]. *)
Definition try_except {A} (body : M A) (catches : exn -> bool) (handler : M A)
  : M A :=
  fun s =>
    match body s with
    | (Ok a, s') => (Ok a, s')
    | (Raise e, s') => if catches e then handler s' else (Raise e, s')
    end.

(** [try: body / finally: fin].  An exception raised by [fin] replaces the
    one in flight. *)
Definition try_finally {A} (body : M A) (fin : M unit) : M A :=
  fun s =>
    match body s with
    | (r, s') =>
        match fin s' with
        | (Ok _, s'') => (r, s'')
        | (Raise e, s'') => (Raise e, s'')
        end
    end.

Definition log_entry (en : entry) (s : state) : state :=
  {| v_pw := v_pw s; v_browser := v_browser s; v_context := v_context s;
     st_log := st_log s ++ [en] |}.

Definition set_pw (v : value) : M unit :=
  fun s => (Ok tt, {| v_pw := v; v_browser := v_browser s;
                      v_context := v_context s; st_log := st_log s |}).

Definition set_browser (v : value) : M unit :=
  fun s => (Ok tt, {| v_pw := v_pw s; v_browser := v;
                      v_context := v_context s; st_log := st_log s |}).

Definition set_context (v : value) : M unit :=
  fun s => (Ok tt, {| v_pw := v_pw s; v_browser := v_browser s;
                      v_context := v; st_log := st_log s |}).

(** [for x in xs: body x] *)
Fixpoint for_each {A} (xs : list A) (body : A -> M unit) : M unit :=
  match xs with
  | [] => ret tt
  | x :: xs' => body x ;; for_each xs' body
  end.

Section Run.

Variable rt : runtime.

(** An awaited Playwright call. *)
Definition call (e : event) : M unit :=
  fun s =>
    match rt_call rt (st_log s) e with
    | Returned => (Ok tt, log_entry (e, Returned) s)
    | Failed f => (Raise (PlaywrightError f), log_entry (e, Failed f) s)
    end.

(** A call that cannot fail ([context.set_default_timeout], [asyncio.sleep]). *)
Definition emit (e : event) : M unit :=
  fun s => (Ok tt, log_entry (e, Returned) s).

(** [await expect(loc).to_be_visible(timeout=t)]: raises [AssertionError]
    when the locator does not become visible within the timeout. *)
Definition to_be_visible (selector : string) (timeout : Z) : M unit :=
  fun s =>
    let e := EToBeVisible selector timeout in
    match rt_call rt (st_log s) e with
    | Returned => (Ok tt, log_entry (e, Returned) s)
    | Failed f =>
        (Raise (AssertionError (failure_message f)), log_entry (e, Failed f) s)
    end.

(** [frame = context.pages[-1]] *)
Definition last_page : M unit :=
  fun s =>
    match rt_call rt (st_log s) ELastPage with
    | Returned => (Ok tt, log_entry (ELastPage, Returned) s)
    | Failed f => (Raise IndexError, log_entry (ELastPage, Failed f) s)
    end.

(** Evaluating a name. *)
Definition lookup (globals : list string) (name : string) : M unit :=
  if name_bound globals name then ret tt else raise (NameError name).

Definition frames : M nat := fun s => (Ok (rt_frames rt (st_log s)), s).

Definition launch_args : list string :=
  ["--window-size=1280,720"; "--disable-dev-shm-usage"; "--ipc=host";
   "--single-process"].

(** Lines 34-45 of every file: the load-state waits of the page and of each
    of its frames, each in its own [try ... except async_api.Error: pass]. *)
Definition wait_loaded : M unit :=
  try_except (call (EPageWaitLoadState "domcontentloaded" 3000))
             isinstance_Error (ret tt) ;;
  n <- frames ;;
  for_each (seq 0 n)
    (fun i => try_except (call (EFrameWaitLoadState i "domcontentloaded" 3000))
                         isinstance_Error (ret tt)).

(** Lines 10-45 of every file. *)
Definition bootstrap : M unit :=
  call EPlaywrightStart ;;
  set_pw (VObject "Playwright") ;;
  call (ELaunch true launch_args) ;;
  set_browser (VObject "Browser") ;;
  call ENewContext ;;
  set_context (VObject "BrowserContext") ;;
  emit (ESetDefaultTimeout 5000) ;;
  call ENewPage ;;
  call (EGoto "http://localhost:3000" "commit" 10000) ;;
  wait_loaded.

(** The [try ... except AssertionError: raise AssertionError(msg)] block
    around the visibility check. *)
Definition assert_block (globals : list string) (fn selector : string)
  (timeout : Z) (msg : string) : M unit :=
  try_except (lookup globals fn ;; to_be_visible selector timeout)
             isinstance_AssertionError
             (raise (AssertionError msg)).

Definition exec_stmt (globals : list string) (st : stmt) : M unit :=
  match st with
  | SGoto url w t => call (EGoto url w t)
  | SClick sel n grace t =>
      last_page ;; call (EWaitForTimeout grace) ;; call (EClick sel n t)
  | SFence => raise SyntaxError
  | SAssertVisible fn sel t msg =>
      last_page ;; assert_block globals fn sel t msg
  | SSleep n => emit (ESleep n)
  end.

Fixpoint exec_steps (globals : list string) (sts : list stmt) : M unit :=
  match sts with
  | [] => ret tt
  | st :: sts' => exec_stmt globals st ;; exec_steps globals sts'
  end.

(** [if x: await x.close()] *)
Definition close_if (var : state -> value) (e : event) : M unit :=
  fun s => if truthy (var s) then call e s else ret tt s.

(** The [finally] block. *)
Definition teardown : M unit :=
  close_if v_context EContextClose ;;
  close_if v_browser EBrowserClose ;;
  close_if v_pw EPlaywrightStop.

Definition run_test (sc : script) : M unit :=
  try_finally (bootstrap ;; exec_steps (sc_globals sc) (sc_body sc)) teardown.

(** Running the file: it is parsed as a whole first; [asyncio.run(run_test())]
    lets whatever [run_test] raises escape. *)
Definition run_file (sc : script) : result unit * list entry :=
  if parses sc then
    let (r, s) := run_test sc init_state in (r, st_log s)
  else (Raise SyntaxError, []).

End Run.

(** ** Reading a log *)

(** The two load-state waits are the only calls wrapped in
    [try ... except async_api.Error: pass]. *)
Definition swallowed (e : event) : bool :=
  match e with
  | EPageWaitLoadState _ _ | EFrameWaitLoadState _ _ _ => true
  | _ => false
  end.

Definition is_teardown (e : event) : bool :=
  match e with
  | EContextClose | EBrowserClose | EPlaywrightStop => true
  | _ => false
  end.

Definition is_check (e : event) : bool :=
  match e with
  | EToBeVisible _ _ => true
  | _ => false
  end.

Definition is_click (e : event) : bool :=
  match e with
  | EClick _ _ _ => true
  | _ => false
  end.

Definition is_goto (e : event) : bool :=
  match e with
  | EGoto _ _ _ => true
  | _ => false
  end.

(** The three calls whose result is kept in a local variable. *)
Definition is_acquire (e : event) : bool :=
  match e with
  | EPlaywrightStart | ELaunch _ _ | ENewContext => true
  | _ => false
  end.

(** A failed call that is not swallowed ends the [try] body. *)
Definition stopping (en : entry) : bool :=
  match en with
  | (e, Failed _) => negb (swallowed e)
  | (_, Returned) => false
  end.

Definition failed (en : entry) : bool :=
  match en with
  | (_, Failed _) => true
  | (_, Returned) => false
  end.

(** Which of the three resources a log shows as created. *)
Definition acquired_pw (log : list entry) : bool :=
  existsb (fun en => match en with
                     | (EPlaywrightStart, Returned) => true
                     | _ => false
                     end) log.

Definition acquired_browser (log : list entry) : bool :=
  existsb (fun en => match en with
                     | (ELaunch _ _, Returned) => true
                     | _ => false
                     end) log.

Definition acquired_context (log : list entry) : bool :=
  existsb (fun en => match en with
                     | (ENewContext, Returned) => true
                     | _ => false
                     end) log.

(** The calls the [finally] block makes for a given body log, in order. *)
Definition closing_calls (body : list entry) : list event :=
  (if acquired_context body then [EContextClose] else []) ++
  (if acquired_browser body then [EBrowserClose] else []) ++
  (if acquired_pw body then [EPlaywrightStop] else []).

(** ** What a script is written to do *)

Definition stmt_events (st : stmt) : list event :=
  match st with
  | SGoto u w t => [EGoto u w t]
  | SClick sel n g t => [ELastPage; EWaitForTimeout g; EClick sel n t]
  | SFence => []
  | SAssertVisible _ sel t _ => [ELastPage; EToBeVisible sel t]
  | SSleep n => [ESleep n]
  end.

(** The calls of a statement list when every call returns, up to the first
    statement that raises whatever the runtime does. *)
Fixpoint planned_calls (globals : list string) (sts : list stmt) : list event :=
  match sts with
  | [] => []
  | SFence :: _ => []
  | SAssertVisible fn sel t _ :: sts' =>
      ELastPage ::
      (if name_bound globals fn
       then EToBeVisible sel t :: planned_calls globals sts'
       else [])
  | st :: sts' => stmt_events st ++ planned_calls globals sts'
  end.

(** ... and the exception that statement raises, if there is one. *)
Fixpoint planned_exn (globals : list string) (sts : list stmt) : option exn :=
  match sts with
  | [] => None
  | SFence :: _ => Some SyntaxError
  | SAssertVisible fn _ _ _ :: sts' =>
      if name_bound globals fn then planned_exn globals sts'
      else Some (NameError fn)
  | _ :: sts' => planned_exn globals sts'
  end.

Definition frame_waits (n : nat) : list event :=
  map (fun i => EFrameWaitLoadState i "domcontentloaded" 3000) (seq 0 n).

Definition bootstrap_calls (n : nat) : list event :=
  [EPlaywrightStart; ELaunch true launch_args; ENewContext;
   ESetDefaultTimeout 5000; ENewPage;
   EGoto "http://localhost:3000" "commit" 10000;
   EPageWaitLoadState "domcontentloaded" 3000] ++ frame_waits n.

Definition body_calls (n : nat) (sc : script) : list event :=
  bootstrap_calls n ++ planned_calls (sc_globals sc) (sc_body sc).

Definition prefix_of {A} (l plan : list A) : Prop :=
  exists rest, plan = l ++ rest.

(** The awaited Playwright calls other than the visibility check: what
    they raise is an [async_api.Error]. *)
Definition raises_playwright (e : event) : bool :=
  match e with
  | EToBeVisible _ _ | ELastPage => false
  | _ => true
  end.

(** The exception a stopping entry raises: [to_be_visible] raises
    [AssertionError] (which the handler turns into another one), indexing
    an empty page list [IndexError], every other call a Playwright error. *)
Definition stop_exn (e : event) (f : pw_failure) (ex : exn) : Prop :=
  match e with
  | EToBeVisible _ _ => exists m, ex = AssertionError m
  | ELastPage => ex = IndexError
  | _ => ex = PlaywrightError f
  end.

Definition finishes {A} (sres : option exn) (r : result A) : Prop :=
  match sres with
  | None => exists a, r = Ok a
  | Some e => r = Raise e
  end.

(** [conforms plan sres evs r]: a computation written to make the calls
    [plan] and then finish as [sres] logged [evs] and ended as [r]. *)
Inductive conforms {A} (plan : list event) (sres : option exn)
  : list entry -> result A -> Prop :=
| CF_through evs r :
    map fst evs = plan ->
    Forall (fun en => stopping en = false) evs ->
    finishes sres r ->
    conforms plan sres evs r
| CF_stopped a e f ex :
    swallowed e = false ->
    Forall (fun en => stopping en = false) a ->
    prefix_of (map fst (a ++ [(e, Failed f)])) plan ->
    stop_exn e f ex ->
    conforms plan sres (a ++ [(e, Failed f)]) (Raise ex).

(** The local variables agree with what the log shows as created. *)
Definition tracked (s : state) : Prop :=
  truthy (v_pw s) = acquired_pw (st_log s) /\
  truthy (v_browser s) = acquired_browser (st_log s) /\
  truthy (v_context s) = acquired_context (st_log s).

(** Every failure in the log is what the runtime answered at that point. *)
Fixpoint honest (rt : runtime) (h : list entry) (evs : list entry) : Prop :=
  match evs with
  | [] => True
  | (e, o) :: evs' =>
      match o with
      | Returned => True
      | Failed f => rt_call rt h e = Failed f
      end /\ honest rt (h ++ [(e, o)]) evs'
  end.

(** [spec_at rt plan sres m s]: run from [s], the computation [m] conforms
    to [plan] and [sres], logs honestly, and keeps the variables in step
    with the log. *)
Definition spec_at (rt : runtime) {A} (plan : list event) (sres : option exn)
  (m : M A) (s : state) : Prop :=
  exists evs,
    st_log (snd (m s)) = st_log s ++ evs /\
    (tracked s -> tracked (snd (m s))) /\
    conforms plan sres evs (fst (m s)) /\
    honest rt (st_log s) evs.

(** ** The thirteen scripts *)

(** [TC002_Toggle_interaction_modes_between_Voice_and_Manual.py] *)
Definition TC002 : script :=
  {| sc_file := "TC002_Toggle_interaction_modes_between_Voice_and_Manual.py";
     sc_globals := ["asyncio"; "async_api"; "run_test"];
     sc_body :=
     [ SGoto "http://localhost:3000" "commit" 10000;
       SClick "xpath=html/body/div/div/div[1]/div[2]/div[1]/div/div" 0 3000 5000;
       SClick "xpath=html/body/div[1]/div/div[1]/div[1]/canvas" 0 3000 5000;
       SClick "xpath=html/body/div/div/div[1]/div[2]/button" 0 3000 5000;
       SClick "xpath=html/body/div/div/div[1]/div[1]/canvas" 0 3000 5000;
       SClick "xpath=html/body/div[1]/div/div[1]/div[2]/div[1]/div/div" 0 3000 5000;
       SClick "xpath=html/body/div/div/div[1]/div[2]/button" 0 3000 5000;
       SGoto "http://localhost:3000" "commit" 10000;
       SGoto "http://localhost:3000" "commit" 10000;
       SGoto "http://localhost:3000" "commit" 10000;
       SClick "xpath=html/body/div/div/div[1]/div[2]/div[1]/div/div" 0 3000 5000;
       SClick "xpath=html/body/div[1]/div/div[1]/div[1]/canvas" 0 3000 5000;
       SGoto "http://localhost:3000" "commit" 10000;
       SClick "xpath=html/body/div/div/div[1]/div[2]/div[1]/div/div" 0 3000 5000;
       SClick "xpath=html/body/div/div/div[1]/div[2]/button" 0 3000 5000;
       SClick "xpath=html/body/div/div/div[1]/div[2]/div/div[3]/button" 0 3000 5000;
       SClick "xpath=html/body/div/div/div[1]/div[2]/div[1]/div/div" 0 3000 5000;
       SClick "xpath=html/body/div[1]/div/div[1]/div[2]/div[1]/div/div" 0 3000 5000;
       SClick "xpath=html/body/div/div/div[1]/div[2]/button" 0 3000 5000;
       SClick "xpath=html/body/div/div/div[1]/div[2]/div[1]/div/div" 0 3000 5000;
       SClick "xpath=html/body/div[1]/div/div[1]/div[2]/div[1]/div/div" 0 3000 5000;
       SClick "xpath=html/body/div/div/div[1]/div[2]/button" 0 3000 5000;
       SClick "xpath=html/body/div/div/div[1]/div[2]/div[1]/div/div" 0 3000 5000;
       SClick "xpath=html/body/div[1]/div/div[1]/div[2]/div[1]/div/div" 0 3000 5000;
       SClick "xpath=html/body/div/div/div[1]/div[2]/button" 0 3000 5000;
       SClick "xpath=html/body/div/div/div[1]/div[2]/div[1]/div/div" 0 3000 5000;
       SClick "xpath=html/body/div[1]/div/div[1]/div[2]/div[1]/div/div" 0 3000 5000;
       SSleep 5 ] |}.

(** [TC004_Navigate_from_Welcome_Page_to_Book_Room_flow_using_Voice_Mode.py] *)
Definition TC004 : script :=
  {| sc_file := "TC004_Navigate_from_Welcome_Page_to_Book_Room_flow_using_Voice_Mode.py";
     sc_globals := ["asyncio"; "async_api"; "run_test"];
     sc_body :=
     [ SGoto "http://localhost:3000" "commit" 10000;
       SClick "xpath=html/body/div/div/div[1]/div[2]/div[1]/div/div" 0 3000 5000;
       SClick "xpath=html/body/div[1]/div/div[1]/div[2]/div[1]/div/div" 0 3000 5000;
       SClick "xpath=html/body/div/div/div[1]/div[4]/div[2]/button" 0 3000 5000;
       SClick "xpath=html/body/div/div/div[1]/div[1]/canvas" 0 3000 5000;
       SClick "xpath=html/body/div[1]/div/div[1]/div[1]/canvas" 0 3000 5000;
       SClick "xpath=html/body/div/div/div[1]/div[4]/div[2]/button" 0 3000 5000;
       SClick "xpath=html/body/div/div/div[1]/div[4]/div[2]/button" 0 3000 5000;
       SClick "xpath=html/body/div/div/div[1]/div[2]/div[1]" 0 3000 5000;
       SClick "xpath=html/body/div[1]/div/div[1]" 0 3000 5000;
       SClick "xpath=html/body/div/div/div[1]/div[4]/div[2]/button" 0 3000 5000;
       SClick "xpath=html/body/div/div/div[1]/div[2]/div[1]/div/div" 0 3000 5000;
       SClick "xpath=html/body/div[1]/div/div[1]/div[2]/div[1]/div/div" 0 3000 5000;
       SGoto "http://localhost:3000" "commit" 10000;
       SClick "xpath=html/body/div/div/div[1]/div[2]/div[1]/div/div" 0 3000 5000;
       SClick "xpath=html/body/div[1]/div/div[1]/div[2]/div[1]/h1" 0 3000 5000;
       SClick "xpath=html/body/div/div/div[1]/div[4]/div[2]/button" 0 3000 5000;
       SClick "xpath=html/body/div/div/div[1]/div[4]/div[2]/button" 0 3000 5000;
       SClick "xpath=html/body/div/div/div[1]/div[2]/div[1]/div/div" 0 3000 5000;
       SGoto "http://localhost:3000" "commit" 10000;
       SAssertVisible "expect" "text=Available Rooms" 3000
       "Test case failed: The voice command 'Book Room' did not navigate to the Room Selection page showing available rooms; the test expected the Room Selection UI with a list of available rooms but it was not visible.";
       SSleep 5 ] |}.

(** [TC006_Select_room_and_proceed_to_payment_in_Booking_workflow.py] *)
Definition TC006 : script :=
  {| sc_file := "TC006_Select_room_and_proceed_to_payment_in_Booking_workflow.py";
     sc_globals := ["asyncio"; "async_api"; "run_test"];
     sc_body :=
     [ SGoto "http://localhost:3000" "commit" 10000;
       SGoto "http://localhost:3000" "commit" 10000;
       SGoto "http://localhost:3000" "commit" 10000;
       SGoto "http://localhost:3000/rooms" "commit" 10000;
       SClick "xpath=html/body/div/div/div[1]/div[2]/div[1]/div/div" 0 3000 5000;
       SClick "xpath=html/body/div[1]/div/div[1]/div[2]/div[1]/div/div" 0 3000 5000;
       SClick "xpath=html/body/div/div/div[1]/div[2]/button" 0 3000 5000;
       SClick "xpath=html/body/div/div/div[1]/div[2]/div[1]/div/div" 0 3000 5000;
       SClick "xpath=html/body/div[1]/div/div[1]/div[1]/canvas" 0 3000 5000;
       SClick "xpath=html/body/div/div/div[1]/div[2]/button" 0 3000 5000;
       SClick "xpath=html/body/div[1]/div/div[1]/div[2]/div/div[2]/button[2]" 0 3000 5000;
       SClick "xpath=html/body/div/div/div[1]/div[2]/div[1]/div/div" 0 3000 5000;
       SClick "xpath=html/body/div[1]/div/div[1]/div[1]/canvas" 0 3000 5000;
       SClick "xpath=html/body/div/div/div[1]/div[2]/button" 0 3000 5000;
       SClick "xpath=html/body/div/div/div[1]/div[2]/div[1]/div/div" 0 3000 5000;
       SClick "xpath=html/body/div[1]/div/div[1]/div[2]/div[1]/div/div" 0 3000 5000;
       SAssertVisible "expect" "text=Payment Summary" 3000
       "Test case failed: The test attempted to verify that selecting a room transitions to the payment section displaying the billing breakdown (room cost and applicable taxes), but the payment summary did not appear — the payment screen with cost and tax details was not shown.";
       SSleep 5 ] |}.

(** [TC007_Simulate_card_payment_and_verify_payment_acceptance.py] *)
Definition TC007 : script :=
  {| sc_file := "TC007_Simulate_card_payment_and_verify_payment_acceptance.py";
     sc_globals := ["asyncio"; "async_api"; "run_test"];
     sc_body :=
     [ SGoto "http://localhost:3000" "commit" 10000;
       SClick "xpath=html/body/div/div/div[1]/div[2]/div[1]/div/div" 0 3000 5000;
       SClick "xpath=html/body/div[1]/div/div[1]/div[2]/div[1]/div/div" 0 3000 5000;
       SClick "xpath=html/body/div/div/div[1]/div[2]/button" 0 3000 5000;
       SClick "xpath=html/body/div/div/div[1]/div[1]/canvas" 0 3000 5000;
       SClick "xpath=html/body/div/div/div[1]/div[2]/button" 0 3000 5000;
       SClick "xpath=html/body/div[1]/div/div[1]/div[2]/div/div[2]/button[1]" 0 3000 5000;
       SClick "xpath=html/body/div/div/div[1]/div[1]/canvas" 0 3000 5000;
       SClick "xpath=html/body/div/div/div[1]/div[2]/button" 0 3000 5000;
       SClick "xpath=html/body/div[1]/div/div[1]/div[2]/div/div[2]/button[1]" 0 3000 5000;
       SClick "xpath=html/body/div/div/div[1]/div[2]/div[1]/div/div" 0 3000 5000;
       SClick "xpath=html/body/div/div/div[1]/div[2]/button" 0 3000 5000;
       SClick "xpath=html/body/div/div/div[1]/div[2]/div/div[2]/button[1]" 0 3000 5000;
       SFence;
       SAssertVisible "expect" "text=Payment Successful" 3000
       "Test case failed: The test attempted to verify that the payment simulation accepted card input and processed the payment, but the 'Payment Successful' confirmation did not appear after submitting the payment";
       SFence;
       SSleep 5 ] |}.

(** [TC008_Perform_ID_scanning_simulation_with_visual_progress_feedback.py] *)
Definition TC008 : script :=
  {| sc_file := "TC008_Perform_ID_scanning_simulation_with_visual_progress_feedback.py";
     sc_globals := ["asyncio"; "async_api"; "run_test"];
     sc_body :=
     [ SGoto "http://localhost:3000" "commit" 10000;
       SClick "xpath=html/body/div/div/div[1]/div[2]/div[1]/div/div" 0 3000 5000;
       SClick "xpath=html/body/div/div/div[1]/div[2]/button" 0 3000 5000;
       SClick "xpath=html/body/div/div/div[1]/div[2]/div[1]/div/div" 0 3000 5000;
       SGoto "http://localhost:3000/" "commit" 10000;
       SGoto "http://localhost:3000/" "commit" 10000;
       SGoto "http://localhost:3000/" "commit" 10000;
       SGoto "http://localhost:3000/" "commit" 10000;
       SClick "xpath=html/body/div/div/div[1]/div[2]/div[1]/div/div" 0 3000 5000;
       SClick "xpath=html/body/div/div/div[1]/div[2]/button" 0 3000 5000;
       SClick "xpath=html/body/div/div/div[1]/div[2]/div[1]/div/div" 0 3000 5000;
       SClick "xpath=html/body/div/div/div[1]/div[2]/button" 0 3000 5000;
       SClick "xpath=html/body/div[1]/div/div[1]/div[2]/div/div[2]/button[1]" 0 3000 5000;
       SClick "xpath=html/body/div/div/div[1]/div[2]/div[1]/div/div" 0 3000 5000;
       SClick "xpath=html/body/div/div/div[1]/div[2]/button" 0 3000 5000;
       SClick "xpath=html/body/div/div/div[1]/div[2]/div[1]/div/div" 0 3000 5000;
       SClick "xpath=html/body/div/div/div[1]/div[2]/button" 0 3000 5000;
       SClick "xpath=html/body/div/div/div[1]/div[2]/div[1]/div/div" 0 3000 5000;
       SClick "xpath=html/body/div/div/div[1]/div[2]/button" 0 3000 5000;
       SClick "xpath=html/body/div/div/div[1]/div[2]/div[1]/div/div" 0 3000 5000;
       SGoto "http://localhost:3000/" "commit" 10000;
       SSleep 5 ] |}.

(** [TC009_Verify_room_key_dispensing_simulation_after_successful_payment.py] *)
Definition TC009 : script :=
  {| sc_file := "TC009_Verify_room_key_dispensing_simulation_after_successful_payment.py";
     sc_globals := ["asyncio"; "async_api"; "run_test"];
     sc_body :=
     [ SGoto "http://localhost:3000" "commit" 10000;
       SClick "xpath=html/body/div/div/div[1]/div[2]/div[1]/div/div" 0 3000 5000;
       SClick "xpath=html/body/div[1]/div/div[1]/div[2]/div[1]/div/div" 0 3000 5000;
       SClick "xpath=html/body/div/div/div[1]/div[2]/button" 0 3000 5000;
       SClick "xpath=html/body/div/div/div[1]/div[2]/div[1]/div/div" 0 3000 5000;
       SGoto "http://localhost:3000" "commit" 10000;
       SGoto "http://localhost:3000" "commit" 10000;
       SClick "xpath=html/body/div/div/div[1]/div[2]/div[1]/div/div" 0 3000 5000;
       SClick "xpath=html/body/div[1]/div/div[1]/div[2]/div[1]/div/div" 0 3000 5000;
       SClick "xpath=html/body/div/div/div[1]/div[2]/button" 0 3000 5000;
       SGoto "http://localhost:3000" "commit" 10000;
       SClick "xpath=html/body/div/div/div[1]/div[2]/div[1]/div/div" 0 3000 5000;
       SClick "xpath=html/body/div[1]/div/div[1]/div[2]/div[1]/div/div" 0 3000 5000;
       SClick "xpath=html/body/div/div/div[1]/div[2]/button" 0 3000 5000;
       SClick "xpath=html/body/div[1]/div/div[1]/div[2]/div/div[2]/button[1]" 0 3000 5000;
       SClick "xpath=html/body/div/div/div[1]/div[2]/div[1]/div/div" 0 3000 5000;
       SClick "xpath=html/body/div[1]/div/div[1]/div[2]/div[1]/div/div" 0 3000 5000;
       SClick "xpath=html/body/div/div/div[1]/div[2]/button" 0 3000 5000;
       SClick "xpath=html/body/div/div/div[1]/div[2]/div[1]/div/div" 0 3000 5000;
       SClick "xpath=html/body/div[1]/div/div[1]/div[2]/div[1]/div/div" 0 3000 5000;
       SClick "xpath=html/body/div/div/div[1]/div[2]/button" 0 3000 5000;
       SGoto "http://localhost:3000" "commit" 10000;
       SClick "xpath=html/body/div/div/div[1]/div[2]/div[1]/div/div" 0 3000 5000;
       SClick "xpath=html/body/div[1]/div/div[1]/div[2]/div[1]/div/div" 0 3000 5000;
       SClick "xpath=html/body/div/div/div[1]/div[2]/button" 0 3000 5000;
       SClick "xpath=html/body/div[1]/div/div[1]/div[2]/div/div[2]/button[1]" 0 3000 5000;
       SClick "xpath=html/body/div/div/div[1]/div[2]/div[1]/div/div" 0 3000 5000;
       SClick "xpath=html/body/div[1]/div/div[1]/div[1]/canvas" 0 3000 5000;
       SClick "xpath=html/body/div/div/div[1]/div[2]/div[1]/div/div" 0 3000 5000;
       SClick "xpath=html/body/div[1]/div/div[1]/div[2]/div[1]/div/div" 0 3000 5000;
       SClick "xpath=html/body/div/div/div[1]/div[2]/button" 0 3000 5000;
       SSleep 5 ] |}.

(** [TC010_Check_backend_state_machine_drives_frontend_UI_correctly.py] *)
Definition TC010 : script :=
  {| sc_file := "TC010_Check_backend_state_machine_drives_frontend_UI_correctly.py";
     sc_globals := ["asyncio"; "async_api"; "run_test"];
     sc_body :=
     [ SGoto "http://localhost:3000" "commit" 10000;
       SClick "xpath=html/body/div/div/div[1]/div[2]/div[1]/div/div" 0 3000 5000;
       SClick "xpath=html/body/div[1]/div/div[1]/div[1]/canvas" 0 3000 5000;
       SClick "xpath=html/body/div/div/div[1]/div[4]/div[2]/button" 0 3000 5000;
       SClick "xpath=html/body/div/div/div[1]/div[2]/div[1]/div/div" 0 3000 5000;
       SClick "xpath=html/body/div/div/div[1]/div[4]/div[2]/button" 0 3000 5000;
       SClick "xpath=html/body/div/div/div[1]/div[2]/div[1]/div/div" 0 3000 5000;
       SAssertVisible "expect" "text=Authority: BackendService | State: LISTENING" 3000
       "Test case failed: Expected the UI to display 'Authority: BackendService | State: LISTENING' after triggering listening, verifying the frontend reflects backend-emitted state machine transitions; the text was not found, indicating the UI may not be driven by backend events or a premature frontend override occurred";
       SSleep 5 ] |}.

(** [TC012_Complete_end_to_end_Room_Booking_workflow_successfully.py] *)
Definition TC012 : script :=
  {| sc_file := "TC012_Complete_end_to_end_Room_Booking_workflow_successfully.py";
     sc_globals := ["asyncio"; "async_api"; "run_test"];
     sc_body :=
     [ SGoto "http://localhost:3000" "commit" 10000;
       SClick "xpath=html/body/div/div/div[1]/div[2]/div[1]/div/div" 0 3000 5000;
       SClick "xpath=html/body/div[1]/div/div[1]/div[2]/div[1]/div/div" 0 3000 5000;
       SClick "xpath=html/body/div/div/div[1]/div[2]/button" 0 3000 5000;
       SClick "xpath=html/body/div/div/div[1]/div[2]/div[1]/div/div" 0 3000 5000;
       SClick "xpath=html/body/div[1]/div/div[1]/div[1]/canvas" 0 3000 5000;
       SGoto "http://localhost:3000" "commit" 10000;
       SClick "xpath=html/body/div/div/div[1]/div[1]/canvas" 0 3000 5000;
       SClick "xpath=html/body/div/div/div[1]/div[1]/canvas" 0 3000 5000;
       SClick "xpath=html/body/div[1]/div/div[1]/div[2]/div[1]/h1" 0 3000 5000;
       SClick "xpath=html/body/div/div/div[1]/div[2]/button" 0 3000 5000;
       SClick "xpath=html/body/div/div/div[1]/div[2]/div[1]/div/div" 0 3000 5000;
       SClick "xpath=html/body/div[1]/div/div[1]/div[2]/div[2]" 0 3000 5000;
       SClick "xpath=html/body/div/div/div[1]/div[2]/button" 0 3000 5000;
       SSleep 5 ] |}.

(** [TC013_Error_handling_for_ID_scanning_simulation_timeout.py] *)
Definition TC013 : script :=
  {| sc_file := "TC013_Error_handling_for_ID_scanning_simulation_timeout.py";
     sc_globals := ["asyncio"; "async_api"; "run_test"];
     sc_body :=
     [ SGoto "http://localhost:3000" "commit" 10000;
       SClick "xpath=html/body/div/div/div[1]/div[2]/div[1]/div/div" 0 3000 5000;
       SClick "xpath=html/body/div[1]/div/div[1]/div[2]/div[1]/div/div" 0 3000 5000;
       SClick "xpath=html/body/div/div/div[1]/div[2]/button" 0 3000 5000;
       SClick "xpath=html/body/div/div/div[1]/div[2]/div[1]/div/div" 0 3000 5000;
       SClick "xpath=html/body/div[1]/div/div[1]/div[2]/div[1]/div/div" 0 3000 5000;
       SClick "xpath=html/body/div/div/div[1]/div[2]/button" 0 3000 5000;
       SClick "xpath=html/body/div/div/div[1]/div[2]/div[1]/div/div" 0 3000 5000;
       SClick "xpath=html/body/div[1]/div/div[1]/div[2]/div[1]/div/div" 0 3000 5000;
       SClick "xpath=html/body/div/div/div[1]/div[2]/button" 0 3000 5000;
       SGoto "http://localhost:3000/" "commit" 10000;
       SClick "xpath=html/body/div/div/div[1]/div[2]/div[1]/div/div" 0 3000 5000;
       SClick "xpath=html/body/div[1]/div/div[1]/div[2]/div[1]/div/div" 0 3000 5000;
       SClick "xpath=html/body/div/div/div[1]/div[2]/button" 0 3000 5000;
       SClick "xpath=html/body/div/div/div[1]/div[2]/div[1]/div/div" 0 3000 5000;
       SClick "xpath=html/body/div[1]/div/div[1]/div[2]/div[1]/div/div" 0 3000 5000;
       SClick "xpath=html/body/div/div/div[1]/div[2]/button" 0 3000 5000;
       SClick "xpath=html/body/div/div/div[1]/div[2]/div[1]/div/div" 0 3000 5000;
       SClick "xpath=html/body/div[1]/div/div[1]/div[2]/div[1]/div/div" 0 3000 5000;
       SClick "xpath=html/body/div/div/div[1]/div[2]/button" 0 3000 5000;
       SClick "xpath=html/body/div/div/div[1]/div[2]/div[1]/div/div" 0 3000 5000;
       SClick "xpath=html/body/div[1]/div/div[1]/div[2]/div[1]/div/div" 0 3000 5000;
       SClick "xpath=html/body/div/div/div[1]/div[2]/div[1]/div/div" 0 3000 5000;
       SClick "xpath=html/body/div[1]/div/div[1]/div[2]/div[1]/div/div" 0 3000 5000;
       SSleep 5 ] |}.

(** [TC014_Error_handling_for_payment_failure.py] *)
Definition TC014 : script :=
  {| sc_file := "TC014_Error_handling_for_payment_failure.py";
     sc_globals := ["asyncio"; "async_api"; "run_test"];
     sc_body :=
     [ SGoto "http://localhost:3000" "commit" 10000;
       SGoto "http://localhost:3000/?reload=1" "commit" 10000;
       SGoto "http://localhost:3000" "commit" 10000;
       SGoto "http://localhost:3000/?debug=1" "commit" 10000;
       SFence;
       SAssertVisible "expect" "text=Payment failed. Please try again or cancel." 3000
       "Test case failed: The test simulated a payment failure and expected a clear 'Payment failed' message and visible options to retry or cancel, but the error message or retry/cancel controls did not appear.";
       SFence;
       SSleep 5 ] |}.

(** [TC015_Verify_Manual_Mode_action_buttons_are_accessible_and_responsive.py] *)
Definition TC015 : script :=
  {| sc_file := "TC015_Verify_Manual_Mode_action_buttons_are_accessible_and_responsive.py";
     sc_globals := ["asyncio"; "async_api"; "run_test"];
     sc_body :=
     [ SGoto "http://localhost:3000" "commit" 10000;
       SClick "xpath=html/body/div/div/div[1]/div[2]/div[1]/div/div" 0 3000 5000;
       SClick "xpath=html/body/div[1]/div/div[1]/div[2]/div[1]/div/div" 0 3000 5000;
       SClick "xpath=html/body/div/div/div[1]/div[2]/button" 0 3000 5000;
       SGoto "http://localhost:3000" "commit" 10000;
       SClick "xpath=html/body/div/div/div[1]/div[1]/canvas" 0 3000 5000;
       SClick "xpath=html/body/div[1]/div/div[1]/div[1]/canvas" 0 3000 5000;
       SClick "xpath=html/body/div/div/div[1]/div[2]/div[1]/div/div" 0 3000 5000;
       SClick "xpath=html/body/div[1]/div/div[1]/div[1]/canvas" 0 3000 5000;
       SClick "xpath=html/body/div/div/div[1]/div[2]/button" 0 3000 5000;
       SClick "xpath=html/body/div/div/div[1]/div[2]/div[1]/div/div" 0 3000 5000;
       SClick "xpath=html/body/div[1]/div/div[1]/div[1]/canvas" 0 3000 5000;
       SClick "xpath=html/body/div/div/div[1]/div[2]/button" 0 3000 5000;
       SAssertVisible "expect" "text=Check-In" 3000
       "Test case failed: Expected the 'Check-In' button to be visible and responsive after activating Manual Mode on the Welcome Page; the button did not appear, so manual-mode controls (Check-In, Book Room, Help) are not accessible or the UI did not transition as expected";
       SSleep 5 ] |}.

(** [TC016_Validate_presence_and_correct_functioning_of_Back_button_across_pages.py] *)
Definition TC016 : script :=
  {| sc_file := "TC016_Validate_presence_and_correct_functioning_of_Back_button_across_pages.py";
     sc_globals := ["asyncio"; "async_api"; "run_test"];
     sc_body :=
     [ SGoto "http://localhost:3000" "commit" 10000;
       SClick "xpath=html/body/div/div/div[1]/div[2]/div[1]/div/div" 0 3000 5000;
       SClick "xpath=html/body/div[1]/div/div[1]/div[2]/div[1]/div/div" 0 3000 5000;
       SClick "xpath=html/body/div/div/div[1]/div[2]/button" 0 3000 5000;
       SClick "xpath=html/body/div/div/div[1]/div[1]/canvas" 0 3000 5000;
       SClick "xpath=html/body/div[1]/div/div[1]/div[2]/div[1]/div/div" 0 3000 5000;
       SClick "xpath=html/body/div/div/div[1]/div[2]/button" 0 3000 5000;
       SClick "xpath=html/body/div/div/div[1]/div[2]/div[1]/div/div" 0 3000 5000;
       SClick "xpath=html/body/div[1]/div/div[1]/div[1]/canvas" 0 3000 5000;
       SClick "xpath=html/body/div/div/div[1]/div[2]/button" 0 3000 5000;
       SClick "xpath=html/body/div/div/div[1]/div[2]/div[1]/div/div" 0 3000 5000;
       SAssertVisible "expect" "text=TOUCH ANYWHERE TO START" 3000
       "Test case failed: Expected to return to the Welcome Page and see the 'TOUCH ANYWHERE TO START' prompt after pressing the Back button. The Back button did not navigate back to the Welcome Page or the welcome prompt was not visible.";
       SSleep 5 ] |}.

(** [TC017_Ensure_global_state_updates_correctly_on_user_actions_emitting_intents.py] *)
Definition TC017 : script :=
  {| sc_file := "TC017_Ensure_global_state_updates_correctly_on_user_actions_emitting_intents.py";
     sc_globals := ["asyncio"; "async_api"; "run_test"];
     sc_body :=
     [ SGoto "http://localhost:3000" "commit" 10000;
       SClick "xpath=html/body/div/div/div[1]/div[2]/div[1]/div/div" 0 3000 5000;
       SClick "xpath=html/body/div/div/div[1]/div[2]/div[1]/div/div" 0 3000 5000;
       SClick "xpath=html/body/div[1]/div/div[1]/div[1]/canvas" 0 3000 5000;
       SGoto "http://localhost:3000/" "commit" 10000;
       SGoto "http://localhost:3000/" "commit" 10000;
       SAssertVisible "expect" "text=Intents Emitted and State Updated" 3000
       "Test case failed: expected the app to display a confirmation that all user interaction intents (select room, toggle mode, confirm payment) were emitted to the backend and that the global state was updated accordingly ('Intents Emitted and State Updated'), but the confirmation did not appear — indicating intents/state updates were not processed or the UI did not reflect them.";
       SSleep 5 ] |}.

Definition all_scripts : list script :=
  [ TC002; TC004; TC006; TC007; TC008; TC009; TC010; TC012; TC013; TC014; TC015; TC016; TC017 ].

(** ** Runtimes used in the examples *)

(** Every call returns; the page has its main frame only. *)
Definition rt_all_return : runtime :=
  {| rt_call := fun _ _ => Returned; rt_frames := fun _ => 1%nat |}.

(** No locator resolves: every click times out. *)
Definition rt_no_element : runtime :=
  {| rt_call := fun _ e =>
       match e with
       | EClick _ _ _ => Failed (PwTimeoutError "Timeout 5000ms exceeded.")
       | _ => Returned
       end;
     rt_frames := fun _ => 1%nat |}.

(** The application is not served: every navigation fails. *)
Definition rt_unreachable : runtime :=
  {| rt_call := fun _ e =>
       match e with
       | EGoto _ _ _ => Failed (PwError "net::ERR_CONNECTION_REFUSED")
       | _ => Returned
       end;
     rt_frames := fun _ => 1%nat |}.

(** Pages never reach the load state in time and the expected text never
    shows; everything else returns. *)
Definition rt_never_visible : runtime :=
  {| rt_call := fun _ e =>
       match e with
       | EPageWaitLoadState _ _ | EFrameWaitLoadState _ _ _ =>
           Failed (PwTimeoutError "Timeout 3000ms exceeded.")
       | EToBeVisible _ _ =>
           Failed (PwError "Locator expected to be visible")
       | _ => Returned
       end;
     rt_frames := fun _ => 2%nat |}.

(** ** Static properties of a statement list *)

Definition is_assert (st : stmt) : bool :=
  match st with
  | SAssertVisible _ _ _ _ => true
  | _ => false
  end.

(** Action steps: navigations and clicks. *)
Definition is_action (st : stmt) : bool :=
  match st with
  | SGoto _ _ _ | SClick _ _ _ _ => true
  | _ => false
  end.

(** What may follow the last step of a script: the closing sleep and, in two
    files, fence lines. *)
Definition is_trailer (st : stmt) : bool :=
  match st with
  | SSleep _ | SFence => true
  | _ => false
  end.

Fixpoint drop_while {A} (p : A -> bool) (l : list A) : list A :=
  match l with
  | [] => []
  | x :: l' => if p x then drop_while p l' else l
  end.

(** The last statement before the trailer, when it is an assertion block. *)
Definition final_assertion (sts : list stmt) : option stmt :=
  match drop_while is_trailer (rev sts) with
  | st :: _ => if is_assert st then Some st else None
  | [] => None
  end.

Definition ends_with_assertion (sts : list stmt) : bool :=
  match final_assertion sts with
  | Some _ => true
  | None => false
  end.

(** An assertion block with an action step somewhere after it. *)
Fixpoint midflow_assertion (sts : list stmt) : bool :=
  match sts with
  | [] => false
  | st :: sts' =>
      (is_assert st && existsb is_action sts') || midflow_assertion sts'
  end.

(** The constants of a click step. *)
Definition click_constants_ok (st : stmt) : bool :=
  match st with
  | SClick _ _ grace t => Z.eqb grace 3000 && Z.eqb t 5000
  | _ => true
  end.

(** In a list of calls: every click has timeout 5000 and comes right after a
    [wait_for_timeout(3000)], and every [wait_for_timeout] is of 3000. *)
Fixpoint guarded (prev : option event) (l : list event) : bool :=
  match l with
  | [] => true
  | e :: l' =>
      match e with
      | EClick _ _ t =>
          Z.eqb t 5000 &&
          match prev with
          | Some (EWaitForTimeout d) => Z.eqb d 3000
          | _ => false
          end
      | EWaitForTimeout d => Z.eqb d 3000
      | _ => true
      end && guarded (Some e) l'
  end.

Definition base_url : string := "http://localhost:3000".

(** The base itself, or the base followed by a path or a query on the root. *)
Definition local_url (u : string) : bool :=
  String.eqb u base_url || String.prefix (base_url ++ "/") u.

Definition goto_ok (e : event) : bool :=
  match e with
  | EGoto u w t => local_url u && String.eqb w "commit" && Z.eqb t 10000
  | _ => true
  end.

Definition stmt_goto_ok (st : stmt) : bool :=
  match st with
  | SGoto u w t => local_url u && String.eqb w "commit" && Z.eqb t 10000
  | _ => true
  end.

(** A navigation written after at least one click. *)
Fixpoint goto_after_click (sts : list stmt) : bool :=
  match sts with
  | [] => false
  | SClick _ _ _ _ :: sts' =>
      existsb (fun st => match st with SGoto _ _ _ => true | _ => false end) sts'
      || goto_after_click sts'
  | _ :: sts' => goto_after_click sts'
  end.

(** [needle] occurs in [hay]. *)
Definition contains (needle hay : string) : bool :=
  match String.index 0 needle hay with
  | Some _ => true
  | None => false
  end.

Definition returned (e : event) : entry := (e, Returned).

(** The scripts with an assertion block, and those without. *)
Definition asserting_scripts : list script :=
  [ TC004; TC006; TC007; TC010; TC014; TC015; TC016; TC017 ].

Definition unasserting_scripts : list script :=
  [ TC002; TC008; TC009; TC012; TC013 ].

(** The scripts with an assertion block that parse. *)
Definition reaching_scripts : list script :=
  [ TC004; TC006; TC010; TC015; TC016; TC017 ].


(** ** The session calls, click locators and two more runtimes *)

(** The calls of lines 10-32, before the load-state waits. *)
Definition session_calls : list event :=
  [EPlaywrightStart; ELaunch true launch_args; ENewContext;
   ESetDefaultTimeout 5000; ENewPage;
   EGoto "http://localhost:3000" "commit" 10000].

Definition page_wait : event := EPageWaitLoadState "domcontentloaded" 3000.

(** A click on the first match of an absolute XPath. *)
Definition click_locator_ok (e : event) : bool :=
  match e with
  | EClick sel n _ => String.prefix "xpath=html/body" sel && Nat.eqb n 0
  | _ => true
  end.

Definition stmt_locator_ok (st : stmt) : bool :=
  match st with
  | SClick sel n _ _ => String.prefix "xpath=html/body" sel && Nat.eqb n 0
  | _ => true
  end.

Definition outcome_returned (en : entry) : bool :=
  match en with
  | (_, Returned) => true
  | (_, Failed _) => false
  end.

(** Closing the context raises; everything else returns. *)
Definition rt_close_fails : runtime :=
  {| rt_call := fun _ e =>
       match e with
       | EContextClose =>
           Failed (PwError "Target page, context or browser has been closed")
       | _ => Returned
       end;
     rt_frames := fun _ => 1%nat |}.

(** The context has lost its pages when the first step looks for one. *)
Definition rt_no_page : runtime :=
  {| rt_call := fun _ e =>
       match e with
       | ELastPage => Failed (PwError "context.pages is empty")
       | _ => Returned
       end;
     rt_frames := fun _ => 1%nat |}.

(** * Facts about the interpreter *)

Lemma prefix_of_refl {A} (l : list A) : prefix_of l l.
Proof. exists []. now rewrite app_nil_r. Qed.

Lemma prefix_of_app {A} (l p q : list A) : prefix_of l p -> prefix_of l (p ++ q).
Proof. intros [r ->]. exists (r ++ q). now rewrite app_assoc. Qed.

Lemma prefix_of_shift {A} (h l p : list A) :
  prefix_of l p -> prefix_of (h ++ l) (h ++ p).
Proof. intros [r ->]. exists r. now rewrite app_assoc. Qed.

Lemma acquired_pw_snoc log e o :
  (e = EPlaywrightStart -> o <> Returned) ->
  acquired_pw (log ++ [(e, o)]) = acquired_pw log.
Proof.
  intros H. unfold acquired_pw. rewrite existsb_app. simpl.
  destruct e, o; simpl; rewrite ?orb_false_r; auto.
  exfalso. now apply H.
Qed.

Lemma acquired_browser_snoc log e o :
  ((exists h a, e = ELaunch h a) -> o <> Returned) ->
  acquired_browser (log ++ [(e, o)]) = acquired_browser log.
Proof.
  intros H. unfold acquired_browser. rewrite existsb_app. simpl.
  destruct e, o; simpl; rewrite ?orb_false_r; auto.
  exfalso. apply H; eauto.
Qed.

Lemma acquired_context_snoc log e o :
  (e = ENewContext -> o <> Returned) ->
  acquired_context (log ++ [(e, o)]) = acquired_context log.
Proof.
  intros H. unfold acquired_context. rewrite existsb_app. simpl.
  destruct e, o; simpl; rewrite ?orb_false_r; auto.
  exfalso. now apply H.
Qed.

Lemma tracked_log_entry s e o :
  (is_acquire e = true -> o <> Returned) ->
  tracked s -> tracked (log_entry (e, o) s).
Proof.
  intros H (Hp & Hb & Hc). unfold tracked, log_entry; simpl.
  rewrite acquired_pw_snoc, acquired_browser_snoc, acquired_context_snoc.
  - auto.
  - intros ->. now apply H.
  - intros (h & a & ->). now apply H.
  - intros ->. now apply H.
Qed.

Section RunFacts.

Variable rt : runtime.

Ltac spec_with evs :=
  exists evs; simpl; split; [ rewrite ?app_nil_r; auto | split; [| split ] ];
  [ | | simpl; auto ].

Lemma honest_app h l1 l2 :
  honest rt h l1 -> honest rt (h ++ l1) l2 -> honest rt h (l1 ++ l2).
Proof.
  revert h. induction l1 as [|[e o] l1 IH]; intros h H1 H2; simpl in *.
  - now rewrite app_nil_r in H2.
  - destruct H1 as [Ho H1]. split; auto.
    apply IH; auto. now rewrite <- app_assoc.
Qed.

Lemma spec_ret {A} (a : A) s : spec_at rt [] None (ret a) s.
Proof.
  spec_with (@nil entry); auto.
  apply CF_through; simpl; auto. now exists a.
Qed.

Lemma spec_raise {A} (e : exn) s : spec_at rt [] (Some e) (@raise A e) s.
Proof.
  spec_with (@nil entry); auto.
  apply CF_through; simpl; auto.
Qed.

Lemma spec_call e s :
  is_acquire e = false -> swallowed e = false ->
  raises_playwright e = true ->
  spec_at rt [e] None (call rt e) s.
Proof.
  intros Ha Hs Hv. unfold spec_at, call.
  destruct (rt_call rt (st_log s) e) as [|f] eqn:E.
  - spec_with [(e, Returned)].
    + apply tracked_log_entry. congruence.
    + apply CF_through; simpl; auto. now exists tt.
  - spec_with [(e, Failed f)].
    + apply tracked_log_entry. congruence.
    + apply (CF_stopped [e] None [] e f); auto.
      * apply prefix_of_refl.
      * destruct e; simpl; auto; discriminate.
Qed.

Lemma spec_last_page s : spec_at rt [ELastPage] None (last_page rt) s.
Proof.
  unfold spec_at, last_page.
  destruct (rt_call rt (st_log s) ELastPage) as [|f] eqn:E.
  - spec_with [(ELastPage, Returned)].
    + now apply tracked_log_entry.
    + apply CF_through; simpl; auto. now exists tt.
  - spec_with [(ELastPage, Failed f)].
    + now apply tracked_log_entry.
    + apply (CF_stopped _ None [] ELastPage f); simpl; auto.
      apply prefix_of_refl.
Qed.

Lemma spec_emit e s :
  is_acquire e = false -> spec_at rt [e] None (emit e) s.
Proof.
  intros Ha. spec_with [(e, Returned)].
  - apply tracked_log_entry. congruence.
  - apply CF_through; simpl; auto. now exists tt.
Qed.

Lemma spec_swallow e s :
  swallowed e = true ->
  spec_at rt [e] None (try_except (call rt e) isinstance_Error (ret tt)) s.
Proof.
  intros Hs.
  assert (Ha : is_acquire e = false) by (destruct e; auto; discriminate).
  unfold spec_at, try_except, call.
  destruct (rt_call rt (st_log s) e) as [|f] eqn:E.
  - spec_with [(e, Returned)].
    + apply tracked_log_entry. congruence.
    + apply CF_through; simpl; auto. now exists tt.
  - spec_with [(e, Failed f)].
    + apply tracked_log_entry. congruence.
    + apply CF_through; simpl; auto.
      * constructor; auto. simpl. now rewrite Hs.
      * now exists tt.
Qed.

Lemma conforms_app {A B} p1 p2 sres evs1 evs2 (a : A) (r : result B) :
  conforms p1 None evs1 (Ok a) ->
  conforms p2 sres evs2 r ->
  conforms (p1 ++ p2) sres (evs1 ++ evs2) r.
Proof.
  intros H1 H2. inversion H1; subst.
  inversion H2; subst.
  - apply CF_through; auto.
    + now rewrite map_app.
    + apply Forall_app; auto.
  - rewrite app_assoc. apply CF_stopped; auto.
    + apply Forall_app; auto.
    + rewrite <- app_assoc, map_app. now apply prefix_of_shift.
Qed.

Lemma spec_bind {A B} p1 p2 sres (m : M A) (k : A -> M B) s :
  spec_at rt p1 None m s ->
  (forall a, fst (m s) = Ok a -> spec_at rt p2 sres (k a) (snd (m s))) ->
  spec_at rt (p1 ++ p2) sres (bind m k) s.
Proof.
  intros (evs1 & Hl1 & Ht1 & Hc1 & Hh1) H2. unfold spec_at, bind.
  destruct (m s) as [[a|e] s1]; simpl in *.
  - destruct (H2 a eq_refl) as (evs2 & Hl2 & Ht2 & Hc2 & Hh2).
    exists (evs1 ++ evs2). split; [| split; [| split ] ].
    + now rewrite Hl2, Hl1, app_assoc.
    + auto.
    + eapply conforms_app; eauto.
    + apply honest_app; auto. now rewrite <- Hl1.
  - exists evs1. split; [| split; [| split ] ]; auto.
    inversion Hc1; subst.
    + destruct H1; discriminate.
    + apply CF_stopped; auto. now apply prefix_of_app.
Qed.

Lemma spec_bind_raise {A B} p e (m : M A) (k : A -> M B) s :
  spec_at rt p (Some e) m s ->
  spec_at rt p (Some e) (bind m k) s.
Proof.
  intros (evs & Hl & Ht & Hc & Hh). unfold spec_at, bind.
  destruct (m s) as [[a|e'] s1]; simpl in *.
  - inversion Hc; subst. simpl in *. discriminate.
  - exists evs. split; [| split; [| split ] ]; auto.
    inversion Hc; subst.
    + apply CF_through; auto. simpl in *. congruence.
    + now apply CF_stopped.
Qed.

(** The assertion block. *)
Lemma spec_assert_unbound g fn sel t msg s :
  name_bound g fn = false ->
  spec_at rt [] (Some (NameError fn))
    (assert_block rt g fn sel t msg) s.
Proof.
  intros Hn. unfold spec_at, assert_block, try_except, bind, lookup.
  rewrite Hn. spec_with (@nil entry); auto.
  apply CF_through; simpl; auto.
Qed.

Lemma spec_assert_bound g fn sel t msg s :
  name_bound g fn = true ->
  spec_at rt [EToBeVisible sel t] None
    (assert_block rt g fn sel t msg) s.
Proof.
  intros Hn. unfold spec_at, assert_block, try_except, bind, lookup, to_be_visible.
  rewrite Hn. simpl.
  destruct (rt_call rt (st_log s) (EToBeVisible sel t)) as [|f] eqn:E.
  - spec_with [(EToBeVisible sel t, Returned)].
    + now apply tracked_log_entry.
    + apply CF_through; simpl; auto. now exists tt.
  - spec_with [(EToBeVisible sel t, Failed f)].
    + now apply tracked_log_entry.
    + apply (CF_stopped _ None [] (EToBeVisible sel t) f); auto.
      * apply prefix_of_refl.
      * simpl. eauto.
Qed.

Lemma spec_exec_steps g sts : forall s,
  spec_at rt (planned_calls g sts) (planned_exn g sts) (exec_steps rt g sts) s.
Proof.
  induction sts as [|st sts IH]; intros s.
  - apply spec_ret.
  - destruct st as [u w t | sel n gr t | | fn sel t msg | n].
    + apply (spec_bind [EGoto u w t]); [ now apply spec_call | intros; apply IH ].
    + apply (spec_bind [ELastPage; EWaitForTimeout gr; EClick sel n t]);
        [ | intros; apply IH ].
      apply (spec_bind [ELastPage] [EWaitForTimeout gr; EClick sel n t]);
        [ apply spec_last_page | intros _ _ ].
      apply (spec_bind [EWaitForTimeout gr] [EClick sel n t]).
      * now apply spec_call.
      * intros. now apply spec_call.
    + apply spec_bind_raise. apply spec_raise.
    + simpl planned_calls. simpl planned_exn.
      destruct (name_bound g fn) eqn:Hn.
      * apply (spec_bind [ELastPage; EToBeVisible sel t]); [ | intros; apply IH ].
        apply (spec_bind [ELastPage] [EToBeVisible sel t]);
          [ apply spec_last_page | intros _ _ ].
        now apply spec_assert_bound.
      * apply spec_bind_raise.
        apply (spec_bind [ELastPage] []);
          [ apply spec_last_page | intros _ _ ].
        now apply spec_assert_unbound.
    + apply (spec_bind [ESleep n]); [ now apply spec_emit | intros; apply IH ].
Qed.

(** Acquiring a resource: the call and the assignment that follows it. *)
Ltac acquire_tac Hk :=
  unfold spec_at, bind, call;
  match goal with
  | |- context [rt_call ?r ?l ?e] => destruct (rt_call r l e) as [|f] eqn:E
  end;
  [ simpl; destruct Hk as (evs & Hl & Ht & Hc & Hh); simpl in Hl, Hh;
    match goal with
    | |- context [(?e, Returned)] =>
        exists ((e, Returned) :: evs); split; [| split; [| split ] ]
    end;
    [ rewrite Hl, <- app_assoc; reflexivity
    | intros (Hp & Hb & Hx); apply Ht; unfold tracked; simpl;
      unfold acquired_pw, acquired_browser, acquired_context in *;
      rewrite !existsb_app; simpl; rewrite ?orb_false_r, ?orb_true_r; auto
    | apply (conforms_app [_] _ _ [_] evs tt); auto;
      apply CF_through; simpl; auto; now exists tt
    | simpl; auto ]
  | match goal with
    | |- context [(?e, Failed ?f)] =>
        exists [(e, Failed f)]; simpl; split; [| split; [| split ] ];
        [ reflexivity
        | apply tracked_log_entry; congruence
        | apply (CF_stopped _ _ [] e f); simpl; auto;
          eexists; simpl; reflexivity
        | auto ]
    end ].

Lemma spec_acquire_pw p sres c (k : M unit) s :
  spec_at rt p sres k
    (snd (set_pw (VObject c) (log_entry (EPlaywrightStart, Returned) s))) ->
  spec_at rt (EPlaywrightStart :: p) sres
    (call rt EPlaywrightStart ;; set_pw (VObject c) ;; k) s.
Proof. intros Hk. acquire_tac Hk. Qed.

Lemma spec_acquire_browser p sres c h a (k : M unit) s :
  spec_at rt p sres k
    (snd (set_browser (VObject c) (log_entry (ELaunch h a, Returned) s))) ->
  spec_at rt (ELaunch h a :: p) sres
    (call rt (ELaunch h a) ;; set_browser (VObject c) ;; k) s.
Proof. intros Hk. acquire_tac Hk. Qed.

Lemma spec_acquire_context p sres c (k : M unit) s :
  spec_at rt p sres k
    (snd (set_context (VObject c) (log_entry (ENewContext, Returned) s))) ->
  spec_at rt (ENewContext :: p) sres
    (call rt ENewContext ;; set_context (VObject c) ;; k) s.
Proof. intros Hk. acquire_tac Hk. Qed.

Lemma spec_frame_loop n : forall i s,
  spec_at rt
    (map (fun i => EFrameWaitLoadState i "domcontentloaded" 3000) (seq i n))
    None
    (for_each (seq i n)
       (fun i => try_except
                   (call rt (EFrameWaitLoadState i "domcontentloaded" 3000))
                   isinstance_Error (ret tt))) s.
Proof.
  induction n as [|n IH]; intros i s; simpl.
  - apply spec_ret.
  - apply (spec_bind [_]).
    + now apply spec_swallow.
    + intros. apply IH.
Qed.

Lemma spec_bootstrap s :
  exists n, spec_at rt (bootstrap_calls n) None (bootstrap rt) s.
Proof.
  eexists. unfold bootstrap, bootstrap_calls. simpl app.
  apply spec_acquire_pw, spec_acquire_browser, spec_acquire_context.
  apply (spec_bind [_]); [ now apply spec_emit | intros _ _ ].
  apply (spec_bind [_]); [ now apply spec_call | intros _ _ ].
  apply (spec_bind [_]); [ now apply spec_call | intros _ _ ].
  unfold wait_loaded.
  apply (spec_bind [_]); [ now apply spec_swallow | intros _ _ ].
  unfold bind at 1, frames at 1. apply spec_frame_loop.
Qed.

Lemma close_if_vars var e s :
  v_pw (snd (close_if rt var e s)) = v_pw s /\
  v_browser (snd (close_if rt var e s)) = v_browser s /\
  v_context (snd (close_if rt var e s)) = v_context s.
Proof.
  unfold close_if, call, ret.
  destruct (truthy (var s)); [ destruct (rt_call rt (st_log s) e) | ]; simpl; auto.
Qed.

Lemma spec_close_if var e s :
  is_teardown e = true ->
  spec_at rt (if truthy (var s) then [e] else []) None (close_if rt var e) s.
Proof.
  intros He. unfold spec_at, close_if.
  destruct (truthy (var s)).
  - apply spec_call; destruct e; try discriminate; auto; intros; discriminate.
  - apply spec_ret.
Qed.

(** The [finally] block makes exactly the closing calls of the resources
    held, and stops at the first one that raises. *)
Lemma spec_teardown s :
  tracked s -> spec_at rt (closing_calls (st_log s)) None (teardown rt) s.
Proof.
  intros Ht. pose proof Ht as (Hp & Hb & Hc).
  unfold closing_calls. rewrite <- Hp, <- Hb, <- Hc. clear Hp Hb Hc.
  unfold teardown.
  apply spec_bind; [ now apply spec_close_if | intros _ _ ].
  destruct (close_if_vars v_context EContextClose s) as (Ep & Eb & _).
  rewrite <- Eb, <- Ep.
  apply spec_bind; [ now apply spec_close_if | intros _ _ ].
  destruct (close_if_vars v_browser EBrowserClose
              (snd (close_if rt v_context EContextClose s))) as (Ep' & _ & _).
  rewrite <- Ep'.
  now apply spec_close_if.
Qed.

Lemma tracked_init : tracked init_state.
Proof. repeat split. Qed.

(** The shape of every run of a file that parses: the log is the log of the
    [try] body followed by the log of the [finally] block; the body follows
    the calls the script is written to make, the [finally] block the closing
    calls of what the body acquired; an exception of the [finally] block
    replaces the result of the body. *)
Theorem run_test_shape (sc : script) :
  exists n body closes (rb rc : result unit),
    st_log (snd (run_test rt sc init_state)) = body ++ closes /\
    conforms (body_calls n sc) (planned_exn (sc_globals sc) (sc_body sc)) body rb /\
    conforms (closing_calls body) None closes rc /\
    honest rt [] (body ++ closes) /\
    fst (run_test rt sc init_state) =
      match rc with Ok _ => rb | Raise e => Raise e end.
Proof.
  destruct (spec_bootstrap init_state) as (n & Hboot).
  assert (Hbody : spec_at rt (body_calls n sc)
                    (planned_exn (sc_globals sc) (sc_body sc))
                    (bootstrap rt ;; exec_steps rt (sc_globals sc) (sc_body sc))
                    init_state).
  { apply spec_bind; auto. intros. apply spec_exec_steps. }
  destruct Hbody as (body & Hl & Ht & Hc & Hh). simpl in Hl, Hh.
  unfold run_test, try_finally.
  destruct ((bootstrap rt ;; exec_steps rt (sc_globals sc) (sc_body sc)) init_state)
    as [rb s1] eqn:E1. simpl in *.
  destruct (spec_teardown s1 (Ht tracked_init)) as (closes & Hl2 & _ & Hc2 & Hh2).
  rewrite Hl in Hc2, Hh2.
  assert (Hhon : honest rt [] (body ++ closes)) by now apply honest_app.
  exists n, body, closes, rb, (fst (teardown rt s1)).
  destruct (teardown rt s1) as [[[]|e] s2]; simpl in *; rewrite Hl2, Hl; auto 6.
Qed.

End RunFacts.

(** * Facts about whole runs *)

Lemma all_returned_map (l : list entry) :
  Forall (fun en => snd en = Returned) l -> l = map returned (map fst l).
Proof.
  induction 1 as [|[e o] l H _ IH]; simpl in *; auto.
  subst o. now rewrite <- IH.
Qed.

Lemma locate_in_body (body closes h rest : list entry) (x : entry) :
  body ++ closes = h ++ x :: rest ->
  is_teardown (fst x) = false ->
  Forall (fun en => is_teardown (fst en) = true) closes ->
  exists rb, body = h ++ x :: rb /\ rest = rb ++ closes.
Proof.
  revert h. induction body as [|b body IH]; intros h E Hx Hc; simpl in E.
  - subst closes. rewrite Forall_forall in Hc.
    specialize (Hc x (in_elt x h rest)). congruence.
  - destruct h as [|h0 h]; simpl in E; injection E as E0 E1; subst.
    + now exists body.
    + destruct (IH h E1 Hx Hc) as (rb & -> & ->). now exists rb.
Qed.

Lemma stop_is_last (a h rb : list entry) (x y : entry) :
  a ++ [y] = h ++ x :: rb ->
  Forall (fun en => stopping en = false) a ->
  stopping x = true ->
  h = a /\ x = y /\ rb = [].
Proof.
  revert h. induction a as [|a0 a IH]; intros h E Ha Hx; simpl in E.
  - destruct h as [|h0 h]; simpl in E; injection E as E0 E1; subst; auto.
    destruct h; discriminate.
  - inversion Ha as [|? ? Ha0 Ha']; subst.
    destruct h as [|h0 h]; simpl in E; injection E as E0 E1; subst.
    + congruence.
    + destruct (IH h E1 Ha' Hx) as (-> & -> & ->). auto.
Qed.

Lemma conforms_inv {A} plan sres evs (r : result A) :
  conforms plan sres evs r ->
  (map fst evs = plan /\
   Forall (fun en => stopping en = false) evs /\
   finishes sres r) \/
  (exists a e f ex,
     evs = a ++ [(e, Failed f)] /\ r = Raise ex /\
     swallowed e = false /\
     Forall (fun en => stopping en = false) a /\
     prefix_of (map fst evs) plan /\
     stop_exn e f ex).
Proof.
  inversion 1; subst; [ left; auto | right ].
  exists a, e, f, ex. auto 10.
Qed.

Lemma conforms_prefix {A} plan sres evs (r : result A) :
  conforms plan sres evs r -> prefix_of (map fst evs) plan.
Proof.
  intros H. apply conforms_inv in H.
  destruct H as [(<- & _) | (a & e & f & ex & _ & _ & _ & _ & H & _)]; auto.
  apply prefix_of_refl.
Qed.

Lemma prefix_of_Forall {A} (P : A -> Prop) (l p : list A) :
  prefix_of l p -> Forall P p -> Forall P l.
Proof.
  intros [r ->] H. now apply Forall_app in H.
Qed.

Lemma Forall_map_fst (P : event -> Prop) (l : list entry) :
  Forall P (map fst l) -> Forall (fun en => P (fst en)) l.
Proof. now rewrite Forall_map. Qed.

Lemma planned_calls_not_teardown g sts :
  Forall (fun e => is_teardown e = false) (planned_calls g sts).
Proof.
  induction sts as [|st sts IH]; simpl; auto.
  destruct st; simpl; auto.
  destruct (name_bound g fn); auto.
Qed.

Lemma body_calls_not_teardown n sc :
  Forall (fun e => is_teardown e = false) (body_calls n sc).
Proof.
  unfold body_calls, bootstrap_calls, frame_waits.
  apply Forall_app; split.
  - apply Forall_app; split.
    + repeat constructor.
    + apply Forall_map, Forall_forall. auto.
  - apply planned_calls_not_teardown.
Qed.

Lemma closing_calls_teardown body :
  Forall (fun e => is_teardown e = true) (closing_calls body).
Proof.
  unfold closing_calls.
  destruct (acquired_context body), (acquired_browser body), (acquired_pw body);
    simpl; repeat constructor.
Qed.

Lemma teardown_not_swallowed e : is_teardown e = true -> swallowed e = false.
Proof. destruct e; simpl; auto; discriminate. Qed.

Section RunFile.

Variable rt : runtime.

Lemma honest_In_failed h l e f :
  honest rt h l -> In (e, Failed f) l -> exists h', rt_call rt h' e = Failed f.
Proof.
  revert h. induction l as [|[e' o'] l IH]; intros h Hh Hin; simpl in *.
  - contradiction.
  - destruct Hh as [Ho Hh]. destruct Hin as [E | Hin].
    + inversion E; subst. eauto.
    + eapply IH; eauto.
Qed.

Lemma run_file_unparsed sc :
  parses sc = false -> run_file rt sc = (Raise SyntaxError, []).
Proof. intros H. unfold run_file. now rewrite H. Qed.

(** The shape of a run, for a file that parses. *)
Lemma run_file_shape sc :
  parses sc = true ->
  exists n body closes (rb rc : result unit),
    snd (run_file rt sc) = body ++ closes /\
    conforms (body_calls n sc) (planned_exn (sc_globals sc) (sc_body sc)) body rb /\
    conforms (closing_calls body) None closes rc /\
    honest rt [] (body ++ closes) /\
    fst (run_file rt sc) = match rc with Ok _ => rb | Raise e => Raise e end /\
    Forall (fun en => is_teardown (fst en) = false) body /\
    Forall (fun en => is_teardown (fst en) = true) closes.
Proof.
  intros Hp. unfold run_file. rewrite Hp.
  destruct (run_test_shape rt sc) as (n & body & closes & rb & rc & Hl & Hb & Hc & Hh & Hr).
  destruct (run_test rt sc init_state) as [r s]. simpl in *.
  exists n, body, closes, rb, rc. repeat split; auto.
  - apply (Forall_map_fst (fun e => is_teardown e = false)).
    eapply prefix_of_Forall; [ eapply conforms_prefix; eauto | ].
    apply body_calls_not_teardown.
  - apply (Forall_map_fst (fun e => is_teardown e = true)).
    eapply prefix_of_Forall; [ eapply conforms_prefix; eauto | ].
    apply closing_calls_teardown.
Qed.

(** A failed call that is not one of the swallowed load-state waits is the
    last call of the [try] body: only closing calls follow, and the run
    ends with an exception. *)
Lemma failed_call_aborts sc h e f rest :
  snd (run_file rt sc) = h ++ (e, Failed f) :: rest ->
  swallowed e = false ->
  is_teardown e = false ->
  Forall (fun en => is_teardown (fst en) = true) rest /\
  exists ex, fst (run_file rt sc) = Raise ex /\
    (raises_playwright e = true -> isinstance_Error ex = true).
Proof.
  intros E Hs Ht.
  destruct (parses sc) eqn:Hp.
  2:{ rewrite run_file_unparsed in E by auto. simpl in E.
      destruct h; discriminate. }
  destruct (run_file_shape sc Hp)
    as (n & body & closes & rb & rc & Hl & Hb & Hc & Hh & Hr & Hbt & Hct).
  rewrite Hl in E.
  destruct (locate_in_body _ _ _ _ _ E Ht Hct) as (rb' & Eb & Er).
  assert (Hstop : stopping (e, Failed f) = true) by (simpl; now rewrite Hs).
  subst body rest.
  apply conforms_inv in Hb.
  destruct Hb as [(_ & Hfa & _) | (a & e0 & f0 & ex & Ea & -> & Hsw & Hfa & _ & Hex)].
  { exfalso. apply Forall_elt in Hfa. congruence. }
  symmetry in Ea. apply stop_is_last in Ea; auto.
  destruct Ea as (-> & Ee & ->). injection Ee as <- <-. simpl.
  split; auto.
  rewrite Hr. apply conforms_inv in Hc.
  destruct Hc as [(_ & _ & [[] ->]) | (c & e1 & f1 & ex1 & Ec & -> & _ & _ & _ & Hex1)].
  - exists ex. split; auto. intros Hv.
    destruct e; simpl in Hex; subst; auto; discriminate.
  - exists ex1. split; auto. intros _.
    assert (Hte : is_teardown e1 = true).
    { rewrite Forall_forall in Hct. apply (Hct (e1, Failed f1)).
      rewrite Ec. apply in_or_app. right. now left. }
    destruct e1; simpl in Hte; try discriminate; simpl in Hex1; subst; auto.
Qed.

End RunFile.

Section CleanRuns.

Variable rt : runtime.

Lemma teardown_entry_returned (en : entry) :
  is_teardown (fst en) = true -> stopping en = false -> snd en = Returned.
Proof.
  destruct en as [e [|f]]; simpl; auto.
  intros Ht. rewrite (teardown_not_swallowed e Ht). discriminate.
Qed.

(** A run of a parsed file in which nothing stopped the [try] body or the
    [finally] block: every call the script is written to make was made, in
    order, then every closing call. *)
Lemma clean_run sc :
  parses sc = true ->
  Forall (fun en => stopping en = false) (snd (run_file rt sc)) ->
  exists n body,
    snd (run_file rt sc) = body ++ map returned (closing_calls body) /\
    map fst body = body_calls n sc /\
    finishes (planned_exn (sc_globals sc) (sc_body sc)) (fst (run_file rt sc)).
Proof.
  intros Hp Hclean.
  destruct (run_file_shape rt sc Hp)
    as (n & body & closes & rb & rc & Hl & Hb & Hc & Hh & Hr & Hbt & Hct).
  rewrite Hl in Hclean. apply Forall_app in Hclean. destruct Hclean as [Fb Fc].
  apply conforms_inv in Hb.
  destruct Hb as [(Hm & _ & Hfin) | (a & e & f & ex & -> & _ & Hs & _)].
  2:{ exfalso. apply Forall_app in Fb. destruct Fb as [_ Fb].
      inversion Fb as [|? ? Hx _]; subst. simpl in Hx. rewrite Hs in Hx.
      discriminate. }
  apply conforms_inv in Hc.
  destruct Hc as [(Hmc & _ & [[] ->]) | (a & e & f & ex & -> & _ & Hs & _)].
  2:{ exfalso. apply Forall_app in Fc. destruct Fc as [_ Fc].
      inversion Fc as [|? ? Hx _]; subst. simpl in Hx. rewrite Hs in Hx.
      discriminate. }
  exists n, body. split; [| split]; auto.
  - rewrite Hl. f_equal. rewrite <- Hmc. apply all_returned_map.
    rewrite Forall_forall in *. intros en Hin.
    apply teardown_entry_returned; auto.
  - now rewrite Hr.
Qed.

End CleanRuns.

Section ResultKinds.

Variable rt : runtime.

Lemma body_calls_no_check n sc :
  forallb (fun e => negb (is_check e))
          (planned_calls (sc_globals sc) (sc_body sc)) = true ->
  Forall (fun e => is_check e = false) (body_calls n sc).
Proof.
  intros H. unfold body_calls, bootstrap_calls, frame_waits.
  apply Forall_app; split.
  - apply Forall_app; split.
    + repeat constructor.
    + apply Forall_map, Forall_forall. auto.
  - rewrite forallb_forall in H. apply Forall_forall. intros e He.
    specialize (H e He). now destruct (is_check e).
Qed.

(** In a script that never gets to call [to_be_visible], no such call is in
    the log, and the run ends as the script is written to end or with a
    Playwright error. *)
Lemma run_without_check sc :
  parses sc = true ->
  forallb (fun e => negb (is_check e))
          (planned_calls (sc_globals sc) (sc_body sc)) = true ->
  Forall (fun en => is_check (fst en) = false) (snd (run_file rt sc)) /\
  (finishes (planned_exn (sc_globals sc) (sc_body sc)) (fst (run_file rt sc)) \/
   (exists f, fst (run_file rt sc) = Raise (PlaywrightError f)) \/
   fst (run_file rt sc) = Raise IndexError).
Proof.
  intros Hp Hn.
  destruct (run_file_shape rt sc Hp)
    as (n & body & closes & rb & rc & Hl & Hb & Hc & Hh & Hr & Hbt & Hct).
  assert (Hbody : Forall (fun en => is_check (fst en) = false) body).
  { apply (Forall_map_fst (fun e => is_check e = false)).
    eapply prefix_of_Forall; [ eapply conforms_prefix; eauto | ].
    now apply body_calls_no_check. }
  split.
  - rewrite Hl. apply Forall_app. split; auto.
    rewrite Forall_forall in *. intros en Hin. specialize (Hct en Hin).
    destruct (fst en); simpl in *; auto; discriminate.
  - rewrite Hr. apply conforms_inv in Hc.
    destruct Hc as [(_ & _ & [[] ->]) | (c & e1 & f1 & ex1 & Ec & -> & _ & _ & _ & Hex1)].
    + apply conforms_inv in Hb.
      destruct Hb as [(_ & _ & Hfin) | (a & e & f & ex & -> & -> & _ & _ & _ & Hex)]; auto.
      right. apply Forall_app in Hbody. destruct Hbody as [_ Hbody].
      inversion Hbody as [|? ? Hx _]; subst. simpl in Hx.
      destruct e; simpl in Hex; try discriminate; subst; eauto.
    + right. left.
      assert (Hte : is_teardown e1 = true).
      { rewrite Forall_forall in Hct. apply (Hct (e1, Failed f1)).
        rewrite Ec. apply in_or_app. right. now left. }
      destruct e1; simpl in Hte; try discriminate; simpl in Hex1; subst; eauto.
Qed.

End ResultKinds.

(** * Facts about the calls in a log *)

Lemma guarded_weaken l :
  guarded None l = true -> forall q, guarded q l = true.
Proof.
  destruct l as [|e l]; simpl; auto.
  destruct e; auto. rewrite andb_false_r. discriminate.
Qed.

Lemma guarded_app_intro l1 : forall p l2,
  guarded p l1 = true -> (forall q, guarded q l2 = true) ->
  guarded p (l1 ++ l2) = true.
Proof.
  induction l1 as [|e l1 IH]; intros p l2 H1 H2; simpl in *; auto.
  apply andb_true_iff in H1. destruct H1 as [He H1].
  rewrite He. simpl. now apply IH.
Qed.

Lemma guarded_prefix l : forall p rest,
  guarded p (l ++ rest) = true -> guarded p l = true.
Proof.
  induction l as [|e l IH]; intros p rest H; simpl in *; auto.
  apply andb_true_iff in H. destruct H as [He H].
  rewrite He. simpl. eapply IH; eauto.
Qed.

Lemma guarded_quiet l :
  Forall (fun e => match e with
                   | EClick _ _ _ | EWaitForTimeout _ => False
                   | _ => True
                   end) l ->
  forall q, guarded q l = true.
Proof.
  induction 1 as [|e l He _ IH]; intros q; simpl; auto.
  rewrite IH. destruct e; auto; contradiction.
Qed.

Lemma guarded_click l : forall p h sel n t rest,
  guarded p l = true ->
  l = h ++ EClick sel n t :: rest ->
  t = 5000%Z /\
  ((h = [] /\ p = Some (EWaitForTimeout 3000)) \/
   exists h', h = h' ++ [EWaitForTimeout 3000]).
Proof.
  induction l as [|e l IH]; intros p h sel n t rest H E.
  - destruct h; discriminate.
  - simpl in H. apply andb_true_iff in H. destruct H as [He H].
    destruct h as [|h0 h]; simpl in E; injection E as E0 E1; subst.
    + apply andb_true_iff in He. destruct He as [Ht Hp].
      apply Z.eqb_eq in Ht. split; auto. left. split; auto.
      destruct p as [[]|]; try discriminate. apply Z.eqb_eq in Hp. now subst.
    + destruct (IH (Some h0) h sel n t rest H eq_refl) as [Ht [[-> Hp] | [h' ->]]].
      * split; auto. right. exists []. simpl. congruence.
      * split; auto. right. now exists (h0 :: h').
Qed.

Lemma guarded_wait l : forall p d,
  guarded p l = true -> In (EWaitForTimeout d) l -> d = 3000%Z.
Proof.
  induction l as [|e l IH]; intros p d H Hin; simpl in *.
  - contradiction.
  - apply andb_true_iff in H. destruct H as [He H].
    destruct Hin as [-> | Hin]; [ now apply Z.eqb_eq in He | eauto ].
Qed.

Lemma guarded_bootstrap n : guarded None (bootstrap_calls n) = true.
Proof.
  unfold bootstrap_calls. apply guarded_app_intro; [ reflexivity | ].
  apply guarded_quiet. unfold frame_waits. apply Forall_map, Forall_forall. auto.
Qed.

Lemma string_prefix_app p : forall u,
  String.prefix p u = true -> exists r, u = (p ++ r)%string.
Proof.
  induction p as [|a p IH]; intros u H.
  - now exists u.
  - destruct u as [|b u]; simpl in H; try discriminate.
    destruct (ascii_dec a b) as [<-|]; try discriminate.
    destruct (IH u H) as [r ->]. now exists r.
Qed.

Lemma local_url_spec u :
  local_url u = true ->
  exists rest, u = (base_url ++ rest)%string /\
    (rest = "" \/ exists rest', rest = ("/" ++ rest')%string).
Proof.
  unfold local_url. intros H. apply orb_true_iff in H. destruct H as [H | H].
  - apply String.eqb_eq in H. subst. exists "". split; auto.
  - apply string_prefix_app in H. destruct H as [r ->].
    exists ("/" ++ r)%string. split; [ reflexivity | eauto ].
Qed.

Section LogFacts.

Variable rt : runtime.

(** The load-state waits end normally whatever their outcome. *)
Lemma frame_loop_ok n : forall i s,
  fst (for_each (seq i n)
         (fun i => try_except
                     (call rt (EFrameWaitLoadState i "domcontentloaded" 3000))
                     isinstance_Error (ret tt)) s) = Ok tt.
Proof.
  induction n as [|n IH]; intros i s; simpl; auto.
  unfold bind, try_except, call at 1.
  destruct (rt_call rt (st_log s) _); simpl; apply IH.
Qed.

Lemma wait_loaded_ok s : fst (wait_loaded rt s) = Ok tt.
Proof.
  unfold wait_loaded, bind at 1, try_except, call at 1.
  destruct (rt_call rt (st_log s) _); simpl;
    unfold bind, frames; apply frame_loop_ok.
Qed.

(** The calls of a log are, in order, calls the script is written to make,
    then closing calls. *)
Lemma log_calls sc :
  exists n body closes,
    snd (run_file rt sc) = body ++ closes /\
    prefix_of (map fst body) (body_calls n sc) /\
    Forall (fun en => is_teardown (fst en) = true) closes.
Proof.
  destruct (parses sc) eqn:Hp.
  2:{ exists 0%nat, [], []. rewrite run_file_unparsed by auto.
      repeat split; auto. now exists (body_calls 0 sc). }
  destruct (run_file_shape rt sc Hp)
    as (n & body & closes & rb & rc & Hl & Hb & Hc & Hh & Hr & Hbt & Hct).
  exists n, body, closes. repeat split; auto.
  eapply conforms_prefix; eauto.
Qed.

Lemma log_guarded sc :
  guarded None (planned_calls (sc_globals sc) (sc_body sc)) = true ->
  guarded None (map fst (snd (run_file rt sc))) = true.
Proof.
  intros Hg. destruct (log_calls sc) as (n & body & closes & -> & [r Hpre] & Hct).
  rewrite map_app. apply guarded_app_intro.
  - assert (Hb : guarded None (body_calls n sc) = true).
    { unfold body_calls.
      apply guarded_app_intro; [ apply guarded_bootstrap | ].
      now apply guarded_weaken. }
    rewrite Hpre in Hb. apply (guarded_prefix _ None r). exact Hb.
  - apply guarded_quiet. apply Forall_map.
    rewrite Forall_forall in *. intros en Hin. specialize (Hct en Hin).
    destruct (fst en); auto; discriminate.
Qed.

Lemma log_gotos sc :
  forallb goto_ok (planned_calls (sc_globals sc) (sc_body sc)) = true ->
  Forall (fun en => goto_ok (fst en) = true) (snd (run_file rt sc)).
Proof.
  intros Hg. destruct (log_calls sc) as (n & body & closes & -> & Hpre & Hct).
  apply Forall_app. split.
  - apply (Forall_map_fst (fun e => goto_ok e = true)).
    eapply prefix_of_Forall; eauto.
    unfold body_calls, bootstrap_calls, frame_waits.
    apply Forall_app; split; [ apply Forall_app; split | ].
    + repeat constructor.
    + apply Forall_map, Forall_forall. auto.
    + apply Forall_forall. now apply forallb_forall.
  - rewrite Forall_forall in *. intros en Hin. specialize (Hct en Hin).
    destruct (fst en); auto; discriminate.
Qed.


(** A failed click, wait or navigation of a step is never caught: only
    closing calls follow it and the run ends with a Playwright error. *)
Lemma failed_step_aborts sc h e f rest :
  snd (run_file rt sc) = h ++ (e, Failed f) :: rest ->
  is_click e = true \/ is_goto e = true ->
  Forall (fun en => is_teardown (fst en) = true) rest /\
  exists f', fst (run_file rt sc) = Raise (PlaywrightError f').
Proof.
  intros E He.
  assert (Hs : swallowed e = false) by (destruct He, e; auto; discriminate).
  assert (Ht : is_teardown e = false) by (destruct He, e; auto; discriminate).
  destruct (failed_call_aborts rt sc h e f rest E Hs Ht) as (Hr & ex & Hex & Hk).
  split; auto.
  assert (Hi : isinstance_Error ex = true).
  { apply Hk. destruct He, e; auto; discriminate. }
  destruct ex; try discriminate. eauto.
Qed.

End LogFacts.

(** * The claims *)

Ltac each_script H :=
  unfold all_scripts, asserting_scripts, unasserting_scripts, reaching_scripts in H;
  simpl in H; repeat (destruct H as [<- | H]); [ .. | contradiction H ].

Ltac in_list := simpl; repeat (first [ left; reflexivity | right ]).

(** C1.  The files TC007 and TC014 hold fence lines (three backquotes) inside
    the body of [run_test], so neither file parses: whatever the runtime,
    running the file raises [SyntaxError] with an empty log.  No session is
    started, no navigation or click is made, and the payment assertion is
    never evaluated. *)
Theorem C1_fenced_files_never_run (rt : runtime) :
  In SFence (sc_body TC007) /\ In SFence (sc_body TC014) /\
  run_file rt TC007 = (Raise SyntaxError, []) /\
  run_file rt TC014 = (Raise SyntaxError, []).
Proof.
  repeat split.
  - simpl. repeat (first [ left; reflexivity | right ]).
  - simpl. repeat (first [ left; reflexivity | right ]).
Qed.

(** C2 does not hold as stated: in TC002, when the first click times out,
    the run ends there with the Playwright error: the log holds the calls up
    to that click and then only the three closing calls; the second click
    step (the canvas) is never attempted. *)
Lemma C2_counterexample :
  nth_error (sc_body TC002) 2
    = Some (SClick "xpath=html/body/div[1]/div/div[1]/div[1]/canvas" 0 3000 5000) /\
  run_file rt_no_element TC002 =
    (Raise (PlaywrightError (PwTimeoutError "Timeout 5000ms exceeded.")),
     map returned
       [EPlaywrightStart; ELaunch true launch_args; ENewContext;
        ESetDefaultTimeout 5000; ENewPage;
        EGoto "http://localhost:3000" "commit" 10000;
        EPageWaitLoadState "domcontentloaded" 3000;
        EFrameWaitLoadState 0 "domcontentloaded" 3000;
        EGoto "http://localhost:3000" "commit" 10000;
        ELastPage; EWaitForTimeout 3000]
     ++ [(EClick "xpath=html/body/div/div/div[1]/div[2]/div[1]/div/div" 0 5000,
          Failed (PwTimeoutError "Timeout 5000ms exceeded."))]
     ++ map returned [EContextClose; EBrowserClose; EPlaywrightStop]).
Proof. split; vm_compute; reflexivity. Qed.

(** C2, amended.  In every script the only failures that are swallowed are
    those of the load-state waits of the bootstrap (lines 34-45), which end
    normally whatever the outcome of the waits, without logging.  Any other
    call of the [try] body that fails is not caught: nothing but the closing
    calls of the [finally] block follows it in the log, no later step is
    run, and the run ends with an exception; for a click that fails, by
    timing out or for want of the element, a Playwright error. *)
Theorem C2_only_load_waits_are_swallowed (rt : runtime) (sc : script)
  (Hin : In sc all_scripts) :
  (forall s, fst (wait_loaded rt s) = Ok tt) /\
  (forall h e f rest,
     snd (run_file rt sc) = h ++ (e, Failed f) :: rest ->
     swallowed e = false ->
     is_teardown e = false ->
     Forall (fun en => is_teardown (fst en) = true) rest /\
     exists ex,
       fst (run_file rt sc) = Raise ex /\
       (is_click e = true -> exists f', ex = PlaywrightError f')).
Proof.
  split.
  - apply wait_loaded_ok.
  - intros h e f rest E Hs Ht.
    destruct (failed_call_aborts rt sc h e f rest E Hs Ht) as (Hr & ex & Hex & Hk).
    split; auto. exists ex. split; auto. intros Hc.
    assert (Hi : isinstance_Error ex = true)
      by (apply Hk; destruct e; auto; discriminate).
    destruct ex; try discriminate. eauto.
Qed.

Lemma C2_only_load_waits_are_swallowed_witness :
  Forall (fun en => is_teardown (fst en) = true)
         (map returned [EContextClose; EBrowserClose; EPlaywrightStop]) /\
  exists ex,
    fst (run_file rt_no_element TC002) = Raise ex /\
    (is_click (EClick "xpath=html/body/div/div/div[1]/div[2]/div[1]/div/div" 0 5000)
       = true ->
     exists f', ex = PlaywrightError f').
Proof.
  assert (Hin : In TC002 all_scripts) by in_list.
  destruct (C2_only_load_waits_are_swallowed rt_no_element TC002 Hin) as [_ H].
  apply (H (map returned
              [EPlaywrightStart; ELaunch true launch_args; ENewContext;
               ESetDefaultTimeout 5000; ENewPage;
               EGoto "http://localhost:3000" "commit" 10000;
               EPageWaitLoadState "domcontentloaded" 3000;
               EFrameWaitLoadState 0 "domcontentloaded" 3000;
               EGoto "http://localhost:3000" "commit" 10000;
               ELastPage; EWaitForTimeout 3000])
           (EClick "xpath=html/body/div/div/div[1]/div[2]/div[1]/div/div" 0 5000)
           (PwTimeoutError "Timeout 5000ms exceeded.")).
  - vm_compute. reflexivity.
  - reflexivity.
  - reflexivity.
Defined.

(** C3 does not hold as stated: TC012 has no assertion step at all; when
    every call returns its run ends normally after the closing sleep without
    any visibility check. *)
Lemma C3_counterexample :
  ends_with_assertion (sc_body TC012) = false /\
  existsb is_assert (sc_body TC012) = false /\
  fst (run_file rt_all_return TC012) = Ok tt /\
  existsb (fun en => is_check (fst en)) (snd (run_file rt_all_return TC012)) = false.
Proof. repeat split; vm_compute; reflexivity. Qed.

(** C3, amended.  Eight of the thirteen scripts (TC004, TC006, TC007, TC010,
    TC014, TC015, TC016, TC017) end with an assertion block: a visibility
    check of a text selector through [expect], bounded by 3000 ms, whose
    handler is written to raise a descriptive [AssertionError].  The other
    five (TC002, TC008, TC009, TC012, TC013) hold no assertion block.  In no
    script is an assertion block followed by a navigation or a click. *)
Theorem C3_assertion_placement :
  Forall (fun sc =>
            exists frag msg,
              final_assertion (sc_body sc)
                = Some (SAssertVisible "expect" ("text=" ++ frag) 3000 msg) /\
              msg <> "")
         asserting_scripts /\
  Forall (fun sc => existsb is_assert (sc_body sc) = false) unasserting_scripts /\
  Forall (fun sc => midflow_assertion (sc_body sc) = false) all_scripts /\
  (forall sc, In sc all_scripts <->
              In sc asserting_scripts \/ In sc unasserting_scripts).
Proof.
  split; [| split; [| split ] ].
  - unfold asserting_scripts.
    repeat (constructor;
            [ eexists; eexists; split;
              [ vm_compute; reflexivity | discriminate ] | ]).
    constructor.
  - unfold unasserting_scripts.
    repeat (constructor; [ vm_compute; reflexivity | ]). constructor.
  - unfold all_scripts.
    repeat (constructor; [ vm_compute; reflexivity | ]). constructor.
  - intros sc. unfold all_scripts, asserting_scripts, unasserting_scripts.
    simpl. tauto.
Qed.

(** C4.  In each of the six scripts whose assertion block can be reached
    (TC004, TC006, TC010, TC015, TC016, TC017) the name [expect] is bound
    nowhere, so evaluating the assertion block raises [NameError] before any
    visibility check is made, and [except AssertionError] does not catch it.
    Whatever the runtime, no run ends with an [AssertionError], so the
    descriptive message is never produced; a run ends with that [NameError]
    or, when an earlier step or a closing call failed, with a Playwright
    error or an [IndexError]; and when no call stops the run, it ends with
    the [NameError] after the three closing calls of the [finally] block. *)
Theorem C4_expect_is_unbound (rt : runtime) (sc : script)
  (Hin : In sc reaching_scripts) :
  name_bound (sc_globals sc) "expect" = false /\
  (exists sel msg,
     final_assertion (sc_body sc) = Some (SAssertVisible "expect" sel 3000 msg) /\
     forall s, assert_block rt (sc_globals sc) "expect" sel 3000 msg s
               = (Raise (NameError "expect"), s)) /\
  (forall m, fst (run_file rt sc) <> Raise (AssertionError m)) /\
  Forall (fun en => is_check (fst en) = false) (snd (run_file rt sc)) /\
  (fst (run_file rt sc) = Raise (NameError "expect") \/
   (exists f, fst (run_file rt sc) = Raise (PlaywrightError f)) \/
   fst (run_file rt sc) = Raise IndexError) /\
  (Forall (fun en => stopping en = false) (snd (run_file rt sc)) ->
   fst (run_file rt sc) = Raise (NameError "expect") /\
   exists body,
     snd (run_file rt sc)
       = body ++ map returned [EContextClose; EBrowserClose; EPlaywrightStop]).
Proof.
  assert (Hp : parses sc = true)
    by (simpl in Hin; repeat destruct Hin as [<- | Hin]; try contradiction;
        reflexivity).
  assert (Hn : forallb (fun e => negb (is_check e))
                 (planned_calls (sc_globals sc) (sc_body sc)) = true)
    by (simpl in Hin; repeat destruct Hin as [<- | Hin]; try contradiction;
        vm_compute; reflexivity).
  assert (Hx : planned_exn (sc_globals sc) (sc_body sc) = Some (NameError "expect"))
    by (simpl in Hin; repeat destruct Hin as [<- | Hin]; try contradiction;
        vm_compute; reflexivity).
  destruct (run_without_check rt sc Hp Hn) as [Hno Hkind].
  rewrite Hx in Hkind. simpl in Hkind.
  split; [| split; [| split; [| split; [| split ] ] ] ]; auto.
  - simpl in Hin; repeat destruct Hin as [<- | Hin]; try contradiction;
      reflexivity.
  - simpl in Hin; repeat destruct Hin as [<- | Hin]; try contradiction;
      (eexists; eexists; split; [ vm_compute; reflexivity | reflexivity ]).
  - intros m Hm. destruct Hkind as [Hk | [[f Hk] | Hk]]; congruence.
  - intros Hclean.
    destruct (clean_run rt sc Hp Hclean) as (n & body & Hl & Hm & Hfin).
    rewrite Hx in Hfin. simpl in Hfin. split; auto.
    exists body. rewrite Hl. f_equal. f_equal.
    assert (Hb : acquired_context body = true /\ acquired_browser body = true
                 /\ acquired_pw body = true).
    { destruct body as [|[e1 o1] [|[e2 o2] [|[e3 o3] body]]];
        try discriminate Hm.
      unfold body_calls, bootstrap_calls in Hm. simpl in Hm.
      injection Hm as -> -> -> _.
      rewrite Hl in Hclean.
      inversion Hclean as [|? ? H1 Hc1]; subst.
      inversion Hc1 as [|? ? H2 Hc2]; subst.
      inversion Hc2 as [|? ? H3 _]; subst.
      destruct o1, o2, o3; try discriminate; auto. }
    destruct Hb as (Hc & Hb & Hw). unfold closing_calls.
    now rewrite Hc, Hb, Hw.
Qed.

Lemma C4_expect_is_unbound_witness :
  fst (run_file rt_all_return TC006) = Raise (NameError "expect") /\
  exists body,
    snd (run_file rt_all_return TC006)
      = body ++ map returned [EContextClose; EBrowserClose; EPlaywrightStop].
Proof.
  apply (C4_expect_is_unbound rt_all_return TC006).
  - simpl. auto.
  - vm_compute. repeat constructor.
Defined.

(** C5 does not hold as stated.  In TC012, when every call of the [try]
    body returns and [context.close()] raises, the [finally] block ends
    there: the browser and the Playwright session were created, yet neither
    [browser.close()] nor [pw.stop()] is ever called, and the run ends with
    the error of [context.close()]. *)
Lemma C5_counterexample :
  fst (run_file rt_close_fails TC012)
    = Raise (PlaywrightError
               (PwError "Target page, context or browser has been closed")) /\
  acquired_context (snd (run_file rt_close_fails TC012)) = true /\
  acquired_browser (snd (run_file rt_close_fails TC012)) = true /\
  acquired_pw (snd (run_file rt_close_fails TC012)) = true /\
  filter (fun en => is_teardown (fst en)) (snd (run_file rt_close_fails TC012))
    = [(EContextClose,
        Failed (PwError "Target page, context or browser has been closed"))].
Proof. repeat split; vm_compute; reflexivity. Qed.

(** C5, amended.  For every script and every way the [try] body ends, the
    [finally] block runs once, after the body, which itself makes no closing
    call.  It makes the closing calls of what the body acquired
    ([context.close()] if [new_context] returned, [browser.close()] if
    [launch] returned, [pw.stop()] if [start] returned), in that order and
    each at most once: either all of them, all returned, or those up to the
    first one that raises, which is then the last call of the run and whose
    error the run ends with.  When the closing calls themselves return, each
    resource is therefore closed exactly once if and only if it was
    created. *)
Theorem C5_teardown_closes_in_order (rt : runtime) (sc : script) :
  exists body closes,
    snd (run_file rt sc) = body ++ closes /\
    Forall (fun en => is_teardown (fst en) = false) body /\
    (closes = map returned (closing_calls body) \/
     exists c e f,
       closes = map returned c ++ [(e, Failed f)] /\
       prefix_of (c ++ [e]) (closing_calls body) /\
       fst (run_file rt sc) = Raise (PlaywrightError f)) /\
    ((forall h e, is_teardown e = true -> rt_call rt h e = Returned) ->
     closes = map returned (closing_calls body)).
Proof.
  destruct (parses sc) eqn:Hp.
  2:{ exists [], []. rewrite run_file_unparsed by auto. simpl. auto. }
  destruct (run_file_shape rt sc Hp)
    as (n & body & closes & rb & rc & Hl & Hb & Hc & Hh & Hr & Hbt & Hct).
  exists body, closes. split; [| split; [| split ] ]; auto.
  - apply conforms_inv in Hc.
    destruct Hc as [(Hmc & Hcl & _) | (a & e & f & ex & -> & -> & _ & Hcl & Hpre & Hex)].
    + left. rewrite <- Hmc. apply all_returned_map.
      rewrite Forall_forall in *. intros en Hin.
      apply teardown_entry_returned; auto.
    + right. apply Forall_app in Hct. destruct Hct as [Hta Hte].
      exists (map fst a), e, f. split; [| split ].
      * assert (Ha : a = map returned (map fst a)).
        { apply all_returned_map.
          rewrite Forall_forall in *. intros en Hin.
          apply teardown_entry_returned; auto. }
        now rewrite <- Ha.
      * now rewrite map_app in Hpre.
      * rewrite Hr. inversion Hte as [|? ? He _]; subst. simpl in He.
        destruct e; try discriminate He; simpl in Hex; now subst.
  - intros Hclose.
    assert (Hret : Forall (fun en => snd en = Returned) closes).
    { rewrite Forall_forall in *. intros [e [|f]] Hin; auto. exfalso.
      destruct (honest_In_failed rt [] (body ++ closes) e f Hh) as (h' & Hf).
      { apply in_or_app. now right. }
      rewrite Hclose in Hf; [ discriminate | ]. apply (Hct _ Hin). }
    apply conforms_inv in Hc.
    destruct Hc as [(Hmc & _) | (a & e & f & ex & -> & _)].
    + rewrite <- Hmc. now apply all_returned_map.
    + exfalso. apply Forall_app in Hret. destruct Hret as [_ Hret].
      inversion Hret as [|? ? Hx _]; subst. discriminate.
Qed.

Lemma C5_teardown_closes_in_order_witness :
  exists body closes,
    snd (run_file rt_no_element TC012) = body ++ closes /\
    Forall (fun en => is_teardown (fst en) = false) body /\
    closes = map returned (closing_calls body).
Proof.
  destruct (C5_teardown_closes_in_order rt_no_element TC012)
    as (body & closes & Hl & Hb & _ & H).
  exists body, closes. split; [| split ]; auto.
  apply H. intros h e He. destruct e; try discriminate He; reflexivity.
Defined.




(** C7 does not hold as stated.  In TC004, when the expected text never
    shows, the run fails with [NameError], whose message holds neither the
    expected text nor a time; and the message the handler is written to
    raise does not hold the expected text "Available Rooms" either. *)
Lemma C7_counterexample :
  fst (run_file rt_never_visible TC004) = Raise (NameError "expect") /\
  contains "Available Rooms" (exn_message (NameError "expect")) = false /\
  exists msg,
    final_assertion (sc_body TC004)
      = Some (SAssertVisible "expect" "text=Available Rooms" 3000 msg) /\
    contains "Available Rooms" msg = false.
Proof.
  split; [| split ]; try (vm_compute; reflexivity).
  eexists. split; vm_compute; reflexivity.
Qed.

(** C7, amended.  Every final visibility assertion is written on a literal
    text selector with the bounded timeout 3000 ms.  Under any binding of
    names the block ends normally only if the visibility check was made and
    returned within that timeout; otherwise it raises, and what it raises
    when the check fails is an [AssertionError] with the fixed message
    written in the script, which holds no elapsed time and, in TC004, TC006
    and TC014, not the literal expected text.  The payment scripts are
    written to expect "Payment Successful" (TC007) and "Payment failed.
    Please try again or cancel." (TC014) within 3000 ms. *)
Theorem C7_final_assertions :
  Forall (fun sc =>
            exists frag msg,
              final_assertion (sc_body sc)
                = Some (SAssertVisible "expect" ("text=" ++ frag) 3000 msg) /\
              forall rt g s,
                let r := fst (assert_block rt g "expect" ("text=" ++ frag) 3000 msg s) in
                (r = Ok tt ->
                 name_bound g "expect" = true /\
                 rt_call rt (st_log s) (EToBeVisible ("text=" ++ frag) 3000) = Returned) /\
                (forall e, r = Raise e ->
                   (name_bound g "expect" = false /\ e = NameError "expect") \/
                   (exists f, rt_call rt (st_log s) (EToBeVisible ("text=" ++ frag) 3000)
                                = Failed f /\ e = AssertionError msg)))
         asserting_scripts /\
  (exists msg, final_assertion (sc_body TC007)
     = Some (SAssertVisible "expect" "text=Payment Successful" 3000 msg)) /\
  (exists msg, final_assertion (sc_body TC014)
     = Some (SAssertVisible "expect"
               "text=Payment failed. Please try again or cancel." 3000 msg)) /\
  Forall (fun sc =>
            exists frag msg,
              final_assertion (sc_body sc)
                = Some (SAssertVisible "expect" ("text=" ++ frag) 3000 msg) /\
              contains frag msg = false)
         [TC004; TC006; TC014].
Proof.
  assert (Hsem : forall rt g sel t msg s,
             let r := fst (assert_block rt g "expect" sel t msg s) in
             (r = Ok tt ->
              name_bound g "expect" = true /\
              rt_call rt (st_log s) (EToBeVisible sel t) = Returned) /\
             (forall e, r = Raise e ->
                (name_bound g "expect" = false /\ e = NameError "expect") \/
                (exists f, rt_call rt (st_log s) (EToBeVisible sel t) = Failed f /\
                           e = AssertionError msg))).
  { intros rt g sel t msg s.
    unfold assert_block, try_except, bind, lookup, to_be_visible, ret, raise.
    destruct (name_bound g "expect"); simpl.
    - destruct (rt_call rt (st_log s) (EToBeVisible sel t)) as [|f]; simpl.
      + split; auto. intros e He. discriminate.
      + split; [ discriminate | ]. intros e He. injection He as <-. eauto.
    - split; [ discriminate | ]. intros e He. injection He as <-. auto. }
  split; [| split; [| split ] ].
  - unfold asserting_scripts.
    repeat (constructor;
            [ eexists; eexists; split;
              [ vm_compute; reflexivity | intros rt g s; apply Hsem ] | ]).
    constructor.
  - eexists. vm_compute. reflexivity.
  - eexists. vm_compute. reflexivity.
  - repeat (constructor;
            [ eexists; eexists; split; vm_compute; reflexivity | ]).
    constructor.
Qed.

(** C8.  In every script every click step is written with a grace delay of
    3000 ms and a click timeout of 5000 ms, and in every run every click in
    the log has timeout 5000 and comes right after a [wait_for_timeout] of
    3000; no other delay occurs in a step. *)
Theorem C8_click_constants (rt : runtime) (sc : script)
  (Hin : In sc all_scripts) :
  forallb click_constants_ok (sc_body sc) = true /\
  (forall h sel n t rest,
     map fst (snd (run_file rt sc)) = h ++ EClick sel n t :: rest ->
     t = 5000%Z /\ exists h', h = h' ++ [EWaitForTimeout 3000]) /\
  (forall d, In (EWaitForTimeout d) (map fst (snd (run_file rt sc))) ->
             d = 3000%Z).
Proof.
  assert (Hs : forallb click_constants_ok (sc_body sc) = true)
    by (each_script Hin; vm_compute; reflexivity).
  assert (Hg : guarded None (planned_calls (sc_globals sc) (sc_body sc)) = true)
    by (each_script Hin; vm_compute; reflexivity).
  apply (log_guarded rt) in Hg.
  split; [| split ]; auto.
  - intros h sel n t rest E.
    destruct (guarded_click _ _ _ _ _ _ _ Hg E) as [Ht [[_ Hp] | Hh]]; auto.
    discriminate.
  - intros d Hd. eapply guarded_wait; eauto.
Qed.

Lemma C8_click_constants_witness :
  5000%Z = 5000%Z /\
  exists h',
    map fst (firstn 11 (snd (run_file rt_no_element TC013)))
      = h' ++ [EWaitForTimeout 3000].
Proof.
  assert (Hin : In TC013 all_scripts) by in_list.
  destruct (C8_click_constants rt_no_element TC013 Hin) as (_ & H & _).
  apply (H _ "xpath=html/body/div/div/div[1]/div[2]/div[1]/div/div" 0%nat 5000%Z
           [EContextClose; EBrowserClose; EPlaywrightStop]).
  vm_compute. reflexivity.
Defined.

(** C9 does not hold as stated: in TC002, when the application is not
    served, the very first navigation raises a Playwright error that is not
    caught; the run ends with that exception after the closing calls, and no
    outcome value is produced. *)
Lemma C9_counterexample :
  run_file rt_unreachable TC002 =
    (Raise (PlaywrightError (PwError "net::ERR_CONNECTION_REFUSED")),
     map returned
       [EPlaywrightStart; ELaunch true launch_args; ENewContext;
        ESetDefaultTimeout 5000; ENewPage]
     ++ [(EGoto "http://localhost:3000" "commit" 10000,
          Failed (PwError "net::ERR_CONNECTION_REFUSED"))]
     ++ map returned [EContextClose; EBrowserClose; EPlaywrightStop]).
Proof. vm_compute. reflexivity. Qed.

(** C9, amended.  Every navigation of every script is written, and made,
    with [wait_until="commit"] and a timeout of 10000 ms.  Navigation is used
    for the initial load (the bootstrap and the first step of every script)
    and again in mid-script, after clicks (as in TC002).  A navigation that
    fails or times out yields no outcome value: it raises a Playwright error
    that is not caught, after which only closing calls are made and the run
    ends with a Playwright error. *)
Theorem C9_navigation_raises (rt : runtime) (sc : script)
  (Hin : In sc all_scripts) :
  forallb stmt_goto_ok (sc_body sc) = true /\
  hd_error (sc_body sc) = Some (SGoto base_url "commit" 10000) /\
  goto_after_click (sc_body TC002) = true /\
  (forall u w t o,
     In (EGoto u w t, o) (snd (run_file rt sc)) -> w = "commit" /\ t = 10000%Z) /\
  (forall h u w t f rest,
     snd (run_file rt sc) = h ++ (EGoto u w t, Failed f) :: rest ->
     Forall (fun en => is_teardown (fst en) = true) rest /\
     exists f', fst (run_file rt sc) = Raise (PlaywrightError f')).
Proof.
  assert (Hs : forallb stmt_goto_ok (sc_body sc) = true)
    by (each_script Hin; vm_compute; reflexivity).
  assert (Hh : hd_error (sc_body sc) = Some (SGoto base_url "commit" 10000))
    by (each_script Hin; reflexivity).
  assert (Hg : forallb goto_ok (planned_calls (sc_globals sc) (sc_body sc)) = true)
    by (each_script Hin; vm_compute; reflexivity).
  apply (log_gotos rt) in Hg.
  split; [| split; [| split; [| split ] ] ]; auto.
  - intros u w t o Hi. rewrite Forall_forall in Hg. specialize (Hg _ Hi).
    simpl in Hg. apply andb_true_iff in Hg. destruct Hg as [Hg Ht].
    apply andb_true_iff in Hg. destruct Hg as [_ Hw].
    apply String.eqb_eq in Hw. apply Z.eqb_eq in Ht. auto.
  - intros h u w t f rest E.
    apply (failed_step_aborts rt sc h _ f rest E). now right.
Qed.

Lemma C9_navigation_raises_witness :
  Forall (fun en => is_teardown (fst en) = true)
         (map returned [EContextClose; EBrowserClose; EPlaywrightStop]) /\
  exists f', fst (run_file rt_unreachable TC002) = Raise (PlaywrightError f').
Proof.
  assert (Hin : In TC002 all_scripts) by in_list.
  destruct (C9_navigation_raises rt_unreachable TC002 Hin) as (_ & _ & _ & _ & H).
  apply (H (map returned
              [EPlaywrightStart; ELaunch true launch_args; ENewContext;
               ESetDefaultTimeout 5000; ENewPage])
           "http://localhost:3000" "commit" 10000%Z
           (PwError "net::ERR_CONNECTION_REFUSED")).
  vm_compute. reflexivity.
Defined.

(** C10.  In every script every navigation is written, and made, to a URL
    that is the base http://localhost:3000 itself or the base followed by a
    path or query starting with a slash (/, /rooms, /?reload=1, /?debug=1):
    no script navigates to another host or port. *)
Theorem C10_navigations_stay_local (rt : runtime) (sc : script)
  (Hin : In sc all_scripts) :
  Forall (fun st => match st with
                    | SGoto u _ _ => local_url u = true
                    | _ => True
                    end) (sc_body sc) /\
  (forall u w t o,
     In (EGoto u w t, o) (snd (run_file rt sc)) ->
     exists rest, u = (base_url ++ rest)%string /\
       (rest = "" \/ exists rest', rest = ("/" ++ rest')%string)).
Proof.
  assert (Hs : forallb stmt_goto_ok (sc_body sc) = true)
    by (each_script Hin; vm_compute; reflexivity).
  assert (Hg : forallb goto_ok (planned_calls (sc_globals sc) (sc_body sc)) = true)
    by (each_script Hin; vm_compute; reflexivity).
  apply (log_gotos rt) in Hg.
  split.
  - apply Forall_forall. intros st Hst.
    rewrite forallb_forall in Hs. specialize (Hs st Hst).
    destruct st; simpl in *; auto.
    apply andb_true_iff in Hs. destruct Hs as [Hs _].
    apply andb_true_iff in Hs. now destruct Hs.
  - intros u w t o Hi. rewrite Forall_forall in Hg. specialize (Hg _ Hi).
    simpl in Hg. apply andb_true_iff in Hg. destruct Hg as [Hg _].
    apply andb_true_iff in Hg. destruct Hg as [Hu _].
    now apply local_url_spec.
Qed.

Lemma C10_navigations_stay_local_witness :
  exists rest, "http://localhost:3000/rooms" = (base_url ++ rest)%string /\
    (rest = "" \/ exists rest', rest = ("/" ++ rest')%string).
Proof.
  assert (Hin : In TC006 all_scripts) by in_list.
  destruct (C10_navigations_stay_local rt_all_return TC006 Hin) as [_ H].
  apply (H "http://localhost:3000/rooms" "commit" 10000%Z Returned).
  vm_compute. tauto.
Defined.

(** * Further properties of the scripts *)

Lemma nonstopping_returned (x : entry) :
  stopping x = false -> swallowed (fst x) = false -> snd x = Returned.
Proof.
  destruct x as [e [|f]]; simpl; auto. intros H Hs. rewrite Hs in H. discriminate.
Qed.

(** In the log of a [try] body, an entry that is followed by another one
    did not stop the body. *)
Lemma conforms_inner {A} plan sres body (r : result A) l1 x l2 :
  conforms plan sres body r ->
  body = l1 ++ x :: l2 -> l2 <> [] ->
  stopping x = false.
Proof.
  intros Hc E Hne. apply conforms_inv in Hc.
  destruct Hc as [(_ & Hf & _) | (a & e & f & ex & Ea & _ & _ & Hf & _)].
  - subst body. now apply Forall_elt in Hf.
  - destruct (exists_last Hne) as (l2' & z & ->).
    rewrite Ea in E.
    change (l1 ++ x :: l2' ++ [z]) with (l1 ++ (x :: l2') ++ [z]) in E.
    rewrite app_assoc in E. apply app_inj_tail in E. destruct E as [-> _].
    now apply Forall_elt in Hf.
Qed.

Lemma locate_in_closes (body closes h rest : list entry) (x : entry) :
  body ++ closes = h ++ x :: rest ->
  is_teardown (fst x) = true ->
  Forall (fun en => is_teardown (fst en) = false) body ->
  exists hc, closes = hc ++ x :: rest /\ h = body ++ hc.
Proof.
  revert h. induction body as [|b body IH]; intros h E Hx Hb; simpl in E.
  - exists h. auto.
  - inversion Hb as [|? ? Hb0 Hb']; subst.
    destruct h as [|h0 h]; simpl in E; injection E as E0 E1; subst.
    + congruence.
    + destruct (IH h E1 Hx Hb') as (hc & -> & ->). now exists hc.
Qed.

(** X2.  When a closing call of the [finally] block raises, it is the last
    call of the run: the closing calls after it are skipped, so what they
    would have released stays open, and its error is what the run ends
    with, whatever the [try] body had raised. *)
Theorem failed_close_skips_the_rest (rt : runtime) (sc : script) h e f rest :
  snd (run_file rt sc) = h ++ (e, Failed f) :: rest ->
  is_teardown e = true ->
  rest = [] /\ fst (run_file rt sc) = Raise (PlaywrightError f).
Proof.
  intros E Ht.
  destruct (parses sc) eqn:Hp.
  2:{ rewrite run_file_unparsed in E by auto. destruct h; discriminate. }
  destruct (run_file_shape rt sc Hp)
    as (n & body & closes & rb & rc & Hl & Hb & Hc & Hh & Hr & Hbt & Hct).
  rewrite Hl in E.
  destruct (locate_in_closes _ _ _ _ _ E Ht Hbt) as (hc & Ec & Eh).
  assert (Hstop : stopping (e, Failed f) = true)
    by (simpl; now rewrite (teardown_not_swallowed e Ht)).
  apply conforms_inv in Hc.
  destruct Hc as [(_ & Hfa & _) | (a & e1 & f1 & ex1 & Ea & -> & _ & Hfa & _ & Hex)].
  { exfalso. rewrite Ec in Hfa. apply Forall_elt in Hfa. congruence. }
  rewrite Ea in Ec. apply stop_is_last in Ec; auto.
  destruct Ec as (_ & Ee & ->). injection Ee as <- <-.
  split; auto. rewrite Hr.
  destruct e; simpl in Ht; try discriminate; simpl in Hex; now subst.
Qed.

Lemma failed_close_skips_the_rest_witness :
  @nil entry = [] /\
  fst (run_file rt_close_fails TC004)
    = Raise (PlaywrightError
               (PwError "Target page, context or browser has been closed")).
Proof.
  apply (failed_close_skips_the_rest rt_close_fails TC004
           (removelast (snd (run_file rt_close_fails TC004))) EContextClose).
  - vm_compute. reflexivity.
  - reflexivity.
Defined.

Lemma call_step (rt : runtime) {B} e (k : unit -> M B) s :
  bind (call rt e) k s =
  match rt_call rt (st_log s) e with
  | Returned => k tt (log_entry (e, Returned) s)
  | Failed f => (Raise (PlaywrightError f), log_entry (e, Failed f) s)
  end.
Proof. unfold bind, call. now destruct (rt_call rt (st_log s) e). Qed.

Lemma swallow_step (rt : runtime) {B} e (k : unit -> M B) s :
  bind (try_except (call rt e) isinstance_Error (ret tt)) k s =
  k tt (log_entry (e, rt_call rt (st_log s) e) s).
Proof. unfold bind, try_except, call. now destruct (rt_call rt (st_log s) e). Qed.

Lemma frame_loop_log (rt : runtime) n : forall i s,
  exists ws,
    st_log (snd (for_each (seq i n)
               (fun i => try_except
                           (call rt (EFrameWaitLoadState i "domcontentloaded" 3000))
                           isinstance_Error (ret tt)) s))
      = st_log s ++ ws /\
    map fst ws
      = map (fun i => EFrameWaitLoadState i "domcontentloaded" 3000) (seq i n).
Proof.
  induction n as [|n IH]; intros i s; simpl.
  - exists []. now rewrite app_nil_r.
  - rewrite swallow_step.
    match goal with
    | |- context [for_each _ _ ?s1] => destruct (IH (S i) s1) as (ws & Hl & Hm)
    end.
    simpl in Hl. rewrite Hl, <- app_assoc.
    eexists. split; [ reflexivity | simpl; now rewrite Hm ].
Qed.

(** X1.  The bootstrap (lines 10-45) fails only when one of [start],
    [launch], [new_context], [new_page] or the first [goto] raises: that
    call is then the last one logged and its error is what the bootstrap
    raises.  When the five return, the bootstrap ends normally whatever the
    load-state waits answer, having waited once for the page and once for
    each frame the page has at that moment (none if it has none). *)
Theorem bootstrap_outcome (rt : runtime) (s : state) :
  (fst (bootstrap rt s) = Ok tt /\
   exists w0 ws,
     st_log (snd (bootstrap rt s))
       = st_log s ++ map returned session_calls ++ w0 :: ws /\
     fst w0 = page_wait /\
     map fst ws
       = frame_waits (rt_frames rt (st_log s ++ map returned session_calls ++ [w0])))
  \/
  (exists k e f,
     nth_error session_calls k = Some e /\
     e <> ESetDefaultTimeout 5000 /\
     rt_call rt (st_log s ++ map returned (firstn k session_calls)) e = Failed f /\
     st_log (snd (bootstrap rt s))
       = st_log s ++ map returned (firstn k session_calls) ++ [(e, Failed f)] /\
     fst (bootstrap rt s) = Raise (PlaywrightError f)).
Proof.
  remember (bootstrap rt s) as p eqn:Hp.
  unfold bootstrap in Hp. rewrite call_step in Hp.
  destruct (rt_call rt (st_log s) EPlaywrightStart) as [|f] eqn:E0.
  2:{ right. exists 0%nat, EPlaywrightStart, f. subst p. simpl.
      rewrite app_nil_r. repeat split; auto. discriminate. }
  unfold bind at 1, set_pw at 1 in Hp. rewrite call_step in Hp.
  simpl st_log in Hp.
  destruct (rt_call rt (st_log s ++ _) (ELaunch true launch_args)) as [|f] eqn:E1.
  2:{ right. exists 1%nat, (ELaunch true launch_args), f. subst p. simpl.
      rewrite <- ?app_assoc. repeat split; auto. discriminate. }
  unfold bind at 1, set_browser at 1 in Hp. rewrite call_step in Hp.
  simpl st_log in Hp.
  destruct (rt_call rt ((st_log s ++ _) ++ _) ENewContext) as [|f] eqn:E2.
  2:{ right. exists 2%nat, ENewContext, f. subst p. simpl.
      rewrite <- ?app_assoc in *. simpl in *.
      repeat split; auto. discriminate. }
  unfold bind at 1, set_context at 1 in Hp.
  unfold bind at 1, emit at 1 in Hp. rewrite call_step in Hp.
  simpl st_log in Hp.
  destruct (rt_call rt _ ENewPage) as [|f] eqn:E3.
  2:{ right. exists 4%nat, ENewPage, f. subst p. simpl.
      rewrite <- ?app_assoc in *. simpl in *.
      repeat split; auto. discriminate. }
  rewrite call_step in Hp. simpl st_log in Hp.
  destruct (rt_call rt _ (EGoto _ _ _)) as [|f] eqn:E4.
  2:{ right. exists 5%nat, (EGoto "http://localhost:3000" "commit" 10000), f.
      subst p. simpl. rewrite <- ?app_assoc in *. simpl in *.
      repeat split; auto. discriminate. }
  left. unfold wait_loaded in Hp. rewrite swallow_step in Hp.
  unfold bind at 1, frames at 1 in Hp. subst p.
  split.
  - apply frame_loop_ok.
  - match goal with
    | |- context [for_each _ _ ?s1] =>
        destruct (frame_loop_log rt (rt_frames rt (st_log s1)) 0 s1) as (ws & Hl & Hm)
    end.
    eexists. exists ws. split; [| split ].
    + rewrite Hl. simpl. rewrite <- !app_assoc. simpl. reflexivity.
    + reflexivity.
    + rewrite Hm. unfold frame_waits. simpl. rewrite <- !app_assoc. reflexivity.
Qed.

(** In the log of a [try] body, every call that is followed by another one
    returned, unless it is one of the swallowed waits. *)
Lemma entries_before_returned {A} plan sres body (r : result A) pre x post :
  conforms plan sres body r ->
  body = pre ++ x :: post ->
  Forall (fun en => swallowed (fst en) = false -> snd en = Returned) pre.
Proof.
  intros Hc E. apply Forall_forall. intros en Hin Hs.
  apply in_split in Hin. destruct Hin as (p1 & p2 & ->).
  apply nonstopping_returned; auto.
  apply (conforms_inner plan sres body r p1 en (p2 ++ x :: post) Hc).
  - rewrite E, <- app_assoc. reflexivity.
  - destruct p2; discriminate.
Qed.

Lemma In_body (body closes : list entry) (x : entry) :
  In x (body ++ closes) ->
  Forall (fun en => is_teardown (fst en) = true) closes ->
  is_teardown (fst x) = false ->
  In x body.
Proof.
  intros Hin Hc Hx. apply in_app_or in Hin. destruct Hin as [H | H]; auto.
  rewrite Forall_forall in Hc. specialize (Hc x H). congruence.
Qed.

Ltac peel pre Hpre :=
  destruct pre as [|[? ?] pre];
  [ simpl in Hpre; try discriminate Hpre
  | simpl in Hpre; injection Hpre as ? Hpre; subst ].

(** X4.  A click is only ever attempted in a fully established session: a
    log that holds a click starts with [start], [launch], [new_context],
    [set_default_timeout], [new_page] and the first [goto], all returned. *)
Theorem click_needs_session (rt : runtime) (sc : script) sel n t o :
  In (EClick sel n t, o) (snd (run_file rt sc)) ->
  exists rest,
    snd (run_file rt sc) = map returned session_calls ++ rest.
Proof.
  intros Hin.
  destruct (parses sc) eqn:Hp.
  2:{ rewrite run_file_unparsed in Hin by auto. contradiction. }
  destruct (run_file_shape rt sc Hp)
    as (k & body & closes & rb & rc & Hl & Hb & Hc & Hh & Hr & Hbt & Hct).
  rewrite Hl in *. apply In_body in Hin; auto.
  apply in_split in Hin. destruct Hin as (pre & post & E).
  pose proof (entries_before_returned _ _ _ _ pre _ post Hb E) as Hret.
  apply conforms_prefix in Hb. destruct Hb as [r Hpre].
  rewrite E, map_app in Hpre. unfold body_calls, bootstrap_calls in Hpre.
  simpl in Hpre.
  peel pre Hpre. peel pre Hpre. peel pre Hpre.
  peel pre Hpre. peel pre Hpre. peel pre Hpre.
  do 6 (let H := fresh in
        inversion Hret as [|? ? H Hret']; subst; simpl in H;
        specialize (H eq_refl); subst; clear Hret; rename Hret' into Hret).
  simpl. eexists. reflexivity.
Qed.

Lemma click_needs_session_witness :
  exists rest,
    snd (run_file rt_no_element TC009) = map returned session_calls ++ rest.
Proof.
  apply (click_needs_session rt_no_element TC009
           "xpath=html/body/div/div/div[1]/div[2]/div[1]/div/div" 0%nat 5000%Z
           (Failed (PwTimeoutError "Timeout 5000ms exceeded."))).
  vm_compute. tauto.
Defined.

Lemma acquired_nested {A} k sc sres body (r : result A) :
  conforms (body_calls k sc) sres body r ->
  (acquired_context body = true -> acquired_browser body = true) /\
  (acquired_browser body = true -> acquired_pw body = true).
Proof.
  intros Hb. split; intros Ha.
  - unfold acquired_context in Ha. apply existsb_exists in Ha.
    destruct Ha as ([e o] & Hin & Hx).
    destruct e; try discriminate Hx. destruct o; try discriminate Hx.
    apply in_split in Hin. destruct Hin as (pre & post & E).
    pose proof (entries_before_returned _ _ _ _ pre _ post Hb E) as Hret.
    apply conforms_prefix in Hb. destruct Hb as [rr Hpre].
    rewrite E, map_app in Hpre. unfold body_calls, bootstrap_calls in Hpre.
    simpl in Hpre.
    peel pre Hpre. peel pre Hpre.
    do 2 (let H := fresh in
          inversion Hret as [|? ? H Hret']; subst; simpl in H;
          specialize (H eq_refl); subst; clear Hret; rename Hret' into Hret).
    reflexivity.
  - unfold acquired_browser in Ha. apply existsb_exists in Ha.
    destruct Ha as ([e o] & Hin & Hx).
    destruct e; try discriminate Hx. destruct o; try discriminate Hx.
    apply in_split in Hin. destruct Hin as (pre & post & E).
    pose proof (entries_before_returned _ _ _ _ pre _ post Hb E) as Hret.
    apply conforms_prefix in Hb. destruct Hb as [rr Hpre].
    rewrite E, map_app in Hpre. unfold body_calls, bootstrap_calls in Hpre.
    simpl in Hpre.
    peel pre Hpre.
    do 1 (let H := fresh in
          inversion Hret as [|? ? H Hret']; subst; simpl in H;
          specialize (H eq_refl); subst; clear Hret; rename Hret' into Hret).
    reflexivity.
Qed.

(** X3.  Resources are acquired nested.  In every run the log splits into
    the calls of the [try] body and the closing calls; in the body
    [new_context] returned only if [launch] returned, and [launch] only if
    [start] returned: what a run holds when the [finally] block starts is
    nothing, the Playwright session, the session and the browser, or all
    three, so the closing calls due are always one of four lists. *)
Theorem acquisition_is_nested (rt : runtime) (sc : script) :
  exists body closes,
    snd (run_file rt sc) = body ++ closes /\
    Forall (fun en => is_teardown (fst en) = false) body /\
    Forall (fun en => is_teardown (fst en) = true) closes /\
    (acquired_context body = true -> acquired_browser body = true) /\
    (acquired_browser body = true -> acquired_pw body = true) /\
    In (closing_calls body)
       [ []; [EPlaywrightStop]; [EBrowserClose; EPlaywrightStop];
         [EContextClose; EBrowserClose; EPlaywrightStop] ].
Proof.
  destruct (parses sc) eqn:Hp.
  2:{ exists [], []. rewrite run_file_unparsed by auto. simpl.
      repeat split; auto; discriminate. }
  destruct (run_file_shape rt sc Hp)
    as (k & body & closes & rb & rc & Hl & Hb & Hc & Hh & Hr & Hbt & Hct).
  destruct (acquired_nested _ _ _ _ _ Hb) as [H1 H2].
  exists body, closes. repeat split; auto.
  unfold closing_calls.
  destruct (acquired_context body), (acquired_browser body), (acquired_pw body);
    simpl; auto 6;
    try (specialize (H1 eq_refl); discriminate);
    try (specialize (H2 eq_refl); discriminate).
Qed.

Lemma planned_calls_not_swallowed g sts :
  Forall (fun e => swallowed e = false) (planned_calls g sts).
Proof.
  induction sts as [|st sts IH]; simpl; auto.
  destruct st; simpl; auto.
  destruct (name_bound g fn); auto.
Qed.

(** X9.  A load-state wait that fails never ends a run: in every script the
    call that follows it in the log is the next call of the [try] body, not
    a closing call. *)
Theorem failed_load_wait_goes_on (rt : runtime) (sc : script)
  (Hin : In sc all_scripts) h e f rest :
  snd (run_file rt sc) = h ++ (e, Failed f) :: rest ->
  swallowed e = true ->
  exists en rest', rest = en :: rest' /\ is_teardown (fst en) = false.
Proof.
  intros E Hs.
  destruct (parses sc) eqn:Hp.
  2:{ rewrite run_file_unparsed in E by auto. destruct h; discriminate. }
  assert (Hne : planned_calls (sc_globals sc) (sc_body sc) <> [])
    by (each_script Hin; try discriminate Hp; vm_compute; discriminate).
  destruct (run_file_shape rt sc Hp)
    as (k & body & closes & rb & rc & Hl & Hb & Hc & Hh & Hr & Hbt & Hct).
  rewrite Hl in E.
  assert (Ht : is_teardown (fst (e, Failed f)) = false)
    by (destruct e; auto; discriminate).
  destruct (locate_in_body _ _ _ _ _ E Ht Hct) as (rb' & Eb & Er).
  destruct rb' as [|en rb'].
  - exfalso. apply conforms_inv in Hb.
    destruct Hb as [(Hm & _) | (a & e0 & f0 & ex & Ea & _ & Hs0 & _)].
    + destruct (exists_last Hne) as (p' & z & Ez).
      assert (Hz : swallowed z = false).
      { pose proof (planned_calls_not_swallowed (sc_globals sc) (sc_body sc)) as Hf.
        rewrite Ez in Hf. apply Forall_app in Hf. destruct Hf as [_ Hf].
        now inversion Hf. }
      unfold body_calls in Hm. rewrite Eb, map_app in Hm.
      change (map fst [(e, Failed f)]) with [e] in Hm.
      rewrite Ez, app_assoc in Hm.
      apply app_inj_tail in Hm. destruct Hm as [_ ->]. congruence.
    + rewrite Eb in Ea. apply app_inj_tail in Ea. destruct Ea as [_ Ea].
      injection Ea as <- <-. congruence.
  - exists en, (rb' ++ closes). split; auto.
    rewrite Forall_forall in Hbt. apply Hbt. rewrite Eb.
    apply in_or_app. right. right. now left.
Qed.

Lemma failed_load_wait_goes_on_witness :
  exists en rest',
    skipn 7 (snd (run_file rt_never_visible TC010)) = en :: rest' /\
    is_teardown (fst en) = false.
Proof.
  assert (Hin : In TC010 all_scripts) by in_list.
  apply (failed_load_wait_goes_on rt_never_visible TC010 Hin
           (firstn 6 (snd (run_file rt_never_visible TC010)))
           page_wait (PwTimeoutError "Timeout 3000ms exceeded.")).
  - vm_compute. reflexivity.
  - reflexivity.
Defined.

Lemma stop_exn_kind e f ex :
  stop_exn e f ex ->
  (exists m, ex = AssertionError m) \/ ex = IndexError \/ ex = PlaywrightError f.
Proof. destruct e; simpl; auto. Qed.

Lemma planned_exn_kind g sts e :
  planned_exn g sts = Some e ->
  e = SyntaxError \/ exists fn, e = NameError fn.
Proof.
  induction sts as [|st sts IH]; simpl; try discriminate.
  destruct st; auto.
  - intros H. injection H as <-. auto.
  - destruct (name_bound g fn); auto. intros H. injection H as <-. eauto.
Qed.

(** What a failed call of the [try] body leads to: only closing calls
    follow; the run ends with the exception of that call when they all
    return, and with the error of the closing call that failed otherwise. *)
Lemma failed_call_result (rt : runtime) sc h e f rest :
  snd (run_file rt sc) = h ++ (e, Failed f) :: rest ->
  swallowed e = false ->
  is_teardown e = false ->
  Forall (fun en => is_teardown (fst en) = true) rest /\
  exists ex, stop_exn e f ex /\
    ((fst (run_file rt sc) = Raise ex /\
      Forall (fun en => snd en = Returned) rest) \/
     (exists c e1 f1,
        rest = c ++ [(e1, Failed f1)] /\
        fst (run_file rt sc) = Raise (PlaywrightError f1))).
Proof.
  intros E Hs Ht.
  destruct (parses sc) eqn:Hp.
  2:{ rewrite run_file_unparsed in E by auto. destruct h; discriminate. }
  destruct (run_file_shape rt sc Hp)
    as (n & body & closes & rb & rc & Hl & Hb & Hc & Hh & Hr & Hbt & Hct).
  rewrite Hl in E.
  destruct (locate_in_body _ _ _ _ _ E Ht Hct) as (rb' & Eb & Er).
  assert (Hstop : stopping (e, Failed f) = true) by (simpl; now rewrite Hs).
  subst body rest.
  apply conforms_inv in Hb.
  destruct Hb as [(_ & Hfa & _) | (a & e0 & f0 & ex & Ea & -> & Hsw & Hfa & _ & Hex)].
  { exfalso. apply Forall_elt in Hfa. congruence. }
  symmetry in Ea. apply stop_is_last in Ea; auto.
  destruct Ea as (-> & Ee & ->). injection Ee as <- <-. simpl.
  split; auto. exists ex. split; auto.
  rewrite Hr. apply conforms_inv in Hc.
  destruct Hc as [(_ & Hcl & [[] ->]) | (c & e1 & f1 & ex1 & Ec & -> & _ & _ & _ & Hex1)].
  - left. split; auto.
    rewrite Forall_forall in *. intros en Hen.
    apply teardown_entry_returned; auto.
  - right. exists c, e1, f1. split; auto.
    assert (Hte : is_teardown e1 = true).
    { rewrite Forall_forall in Hct. apply (Hct (e1, Failed f1)).
      rewrite Ec. apply in_or_app. right. now left. }
    destruct e1; simpl in Hte; try discriminate; simpl in Hex1; now subst.
Qed.

(** X7.  When the context has no page left at [frame = context.pages[-1]],
    the step raises [IndexError] before waiting or clicking: only closing
    calls follow in the log, and the run ends with that [IndexError] unless
    a closing call fails in its turn. *)
Theorem lost_page_raises_index_error (rt : runtime) (sc : script) h f rest :
  snd (run_file rt sc) = h ++ (ELastPage, Failed f) :: rest ->
  Forall (fun en => is_teardown (fst en) = true) rest /\
  ((fst (run_file rt sc) = Raise IndexError /\
    Forall (fun en => snd en = Returned) rest) \/
   (exists c e1 f1,
      rest = c ++ [(e1, Failed f1)] /\
      fst (run_file rt sc) = Raise (PlaywrightError f1))).
Proof.
  intros E.
  destruct (failed_call_result rt sc h ELastPage f rest E eq_refl eq_refl)
    as (Hr & ex & Hex & H).
  simpl in Hex. subst ex. auto.
Qed.

Lemma lost_page_raises_index_error_witness :
  Forall (fun en => is_teardown (fst en) = true)
         (map returned [EContextClose; EBrowserClose; EPlaywrightStop]) /\
  ((fst (run_file rt_no_page TC016) = Raise IndexError /\
    Forall (fun en => snd en = Returned)
           (map returned [EContextClose; EBrowserClose; EPlaywrightStop])) \/
   (exists c e1 f1,
      map returned [EContextClose; EBrowserClose; EPlaywrightStop]
        = c ++ [(e1, Failed f1)] /\
      fst (run_file rt_no_page TC016) = Raise (PlaywrightError f1))).
Proof.
  apply (lost_page_raises_index_error rt_no_page TC016
           (firstn 9 (snd (run_file rt_no_page TC016)))
           (PwError "context.pages is empty")).
  vm_compute. reflexivity.
Defined.

Lemma clean_body_acquires (body : list entry) k sc :
  map fst body = body_calls k sc ->
  Forall (fun en => stopping en = false) body ->
  closing_calls body = [EContextClose; EBrowserClose; EPlaywrightStop].
Proof.
  intros Hm Hclean.
  destruct body as [|[e1 o1] [|[e2 o2] [|[e3 o3] body]]]; try discriminate Hm.
  unfold body_calls, bootstrap_calls in Hm. simpl in Hm.
  injection Hm as -> -> -> _.
  inversion Hclean as [|? ? H1 Hc1]; subst.
  inversion Hc1 as [|? ? H2 Hc2]; subst.
  inversion Hc2 as [|? ? H3 _]; subst.
  destruct o1, o2, o3; try discriminate. reflexivity.
Qed.

(** X5.  A run of a file that parses ends the way the script is written to
    end (normally, or with the [NameError] of its assertion block) exactly
    when no call stopped it, that is when every call returned or was a
    swallowed load-state wait; its calls are then all the calls the script
    is written to make, each once and in order, followed by the three
    closing calls. *)
Theorem ends_as_written_iff_nothing_stopped (rt : runtime) (sc : script)
  (Hp : parses sc = true) :
  (finishes (planned_exn (sc_globals sc) (sc_body sc)) (fst (run_file rt sc)) <->
   Forall (fun en => stopping en = false) (snd (run_file rt sc))) /\
  (Forall (fun en => stopping en = false) (snd (run_file rt sc)) ->
   exists n,
     map fst (snd (run_file rt sc))
       = body_calls n sc ++ [EContextClose; EBrowserClose; EPlaywrightStop]).
Proof.
  split.
  - split.
    + intros Hfin.
      destruct (run_file_shape rt sc Hp)
        as (n & body & closes & rb & rc & Hl & Hb & Hc & Hh & Hr & Hbt & Hct).
      rewrite Hr in Hfin. rewrite Hl. apply Forall_app.
      assert (Hno : forall e f ex,
                 stop_exn e f ex ->
                 ~ finishes (A:=unit)
                     (planned_exn (sc_globals sc) (sc_body sc)) (Raise ex)).
      { intros e f ex Hex Hf.
        destruct (planned_exn (sc_globals sc) (sc_body sc)) as [e0|] eqn:Hx;
          simpl in Hf.
        - injection Hf as <-. apply planned_exn_kind in Hx.
          apply stop_exn_kind in Hex.
          destruct Hx as [-> | [fn ->]];
            destruct Hex as [[m Hm] | [Hm | Hm]]; discriminate.
        - destruct Hf as [a Ha]. discriminate. }
      apply conforms_inv in Hc.
      destruct Hc as [(_ & Hcl & [[] ->]) | (c & e1 & f1 & ex1 & _ & -> & _ & _ & _ & Hex1)].
      2:{ exfalso. eapply Hno; eauto. }
      apply conforms_inv in Hb.
      destruct Hb as [(_ & Hbl & _) | (a & e & f & ex & _ & -> & _ & _ & _ & Hex)]; auto.
      exfalso. eapply Hno; eauto.
    + intros Hclean.
      destruct (clean_run rt sc Hp Hclean) as (n & body & _ & _ & Hfin). exact Hfin.
  - intros Hclean.
    destruct (clean_run rt sc Hp Hclean) as (n & body & Hl & Hm & _).
    exists n. rewrite Hl in *. apply Forall_app in Hclean. destruct Hclean as [Hb _].
    rewrite (clean_body_acquires body n sc Hm Hb).
    rewrite map_app. f_equal. exact Hm.
Qed.

Lemma ends_as_written_iff_nothing_stopped_witness :
  (finishes (planned_exn (sc_globals TC008) (sc_body TC008))
            (fst (run_file rt_never_visible TC008)) <->
   Forall (fun en => stopping en = false)
          (snd (run_file rt_never_visible TC008))) /\
  (Forall (fun en => stopping en = false)
          (snd (run_file rt_never_visible TC008)) ->
   exists n,
     map fst (snd (run_file rt_never_visible TC008))
       = body_calls n TC008 ++ [EContextClose; EBrowserClose; EPlaywrightStop]).
Proof.
  apply (ends_as_written_iff_nothing_stopped rt_never_visible TC008).
  reflexivity.
Defined.

(** X6.  How a run of any of the thirteen scripts can end.  It ends
    normally only in the five scripts without an assertion block; with
    [SyntaxError] in the two files that do not parse; with the [NameError]
    of [expect] only in the six scripts whose assertion block can be
    reached; otherwise with an [IndexError] or a Playwright error.  No run of
    any script ends with [AssertionError]: the descriptive messages are
    never produced, and the eight scripts with an assertion never pass. *)
Theorem every_result_classified (rt : runtime) (sc : script)
  (Hin : In sc all_scripts) :
  (fst (run_file rt sc) = Ok tt /\ In sc unasserting_scripts) \/
  (fst (run_file rt sc) = Raise SyntaxError /\ parses sc = false) \/
  (fst (run_file rt sc) = Raise (NameError "expect") /\ In sc reaching_scripts) \/
  fst (run_file rt sc) = Raise IndexError \/
  (exists f, fst (run_file rt sc) = Raise (PlaywrightError f)).
Proof.
  assert (Hcase :
    parses sc = false \/
    (parses sc = true /\
     forallb (fun e => negb (is_check e))
             (planned_calls (sc_globals sc) (sc_body sc)) = true /\
     ((planned_exn (sc_globals sc) (sc_body sc) = None /\
       In sc unasserting_scripts) \/
      (planned_exn (sc_globals sc) (sc_body sc) = Some (NameError "expect") /\
       In sc reaching_scripts)))).
  { each_script Hin;
      first [ left; reflexivity
            | right; split; [ reflexivity | split; [ vm_compute; reflexivity | ] ];
              first [ left; split; [ vm_compute; reflexivity | in_list ]
                    | right; split; [ vm_compute; reflexivity | in_list ] ] ]. }
  destruct Hcase as [Hp | (Hp & Hn & Hx)].
  - right. left. split; auto. now rewrite run_file_unparsed.
  - destruct (run_without_check rt sc Hp Hn) as [_ [Hfin | [Hpw | Hix]]]; auto 6.
    destruct Hx as [[Hx Hu] | [Hx Hr]]; rewrite Hx in Hfin; simpl in Hfin.
    + left. destruct Hfin as [[] Hfin]. auto.
    + right. right. left. auto.
Qed.

Lemma every_result_classified_witness :
  (fst (run_file rt_close_fails TC017) = Ok tt /\ In TC017 unasserting_scripts) \/
  (fst (run_file rt_close_fails TC017) = Raise SyntaxError /\ parses TC017 = false) \/
  (fst (run_file rt_close_fails TC017) = Raise (NameError "expect") /\
   In TC017 reaching_scripts) \/
  fst (run_file rt_close_fails TC017) = Raise IndexError \/
  (exists f, fst (run_file rt_close_fails TC017) = Raise (PlaywrightError f)).
Proof.
  apply (every_result_classified rt_close_fails TC017). in_list.
Defined.

Lemma bootstrap_calls_no_click n :
  Forall (fun e => is_click e = false) (bootstrap_calls n).
Proof.
  unfold bootstrap_calls, frame_waits. apply Forall_app; split.
  - repeat constructor.
  - apply Forall_map, Forall_forall. auto.
Qed.

(** X8.  Every click of every script is written, and made, on the first
    match ([nth(0)]) of an absolute XPath that starts at [html/body]. *)
Theorem clicks_use_absolute_xpath (rt : runtime) (sc : script)
  (Hin : In sc all_scripts) :
  forallb stmt_locator_ok (sc_body sc) = true /\
  (forall sel n t o,
     In (EClick sel n t, o) (snd (run_file rt sc)) ->
     n = 0%nat /\ exists path, sel = ("xpath=html/body" ++ path)%string).
Proof.
  assert (Hs : forallb stmt_locator_ok (sc_body sc) = true)
    by (each_script Hin; vm_compute; reflexivity).
  assert (Hg : forallb click_locator_ok
                 (planned_calls (sc_globals sc) (sc_body sc)) = true)
    by (each_script Hin; vm_compute; reflexivity).
  split; auto. intros sel n t o Hi.
  destruct (log_calls rt sc) as (k & body & closes & Hl & Hpre & Hct).
  rewrite Hl in Hi. apply In_body in Hi; auto.
  apply (in_map fst) in Hi. simpl in Hi.
  assert (Hall : Forall (fun e => click_locator_ok e = true) (map fst body)).
  { apply (prefix_of_Forall _ _ _ Hpre).
    unfold body_calls. apply Forall_app. split.
    - eapply Forall_impl; [ | apply bootstrap_calls_no_click ].
      intros e He. destruct e; auto; discriminate.
    - apply Forall_forall. now apply forallb_forall. }
  rewrite Forall_forall in Hall. specialize (Hall _ Hi).
  simpl in Hall. apply andb_true_iff in Hall. destruct Hall as [Hx Hn].
  apply Nat.eqb_eq in Hn. apply string_prefix_app in Hx. auto.
Qed.

Lemma clicks_use_absolute_xpath_witness :
  0%nat = 0%nat /\
  exists path,
    "xpath=html/body/div/div/div[1]/div[2]/button"
      = ("xpath=html/body" ++ path)%string.
Proof.
  assert (Hin : In TC015 all_scripts) by in_list.
  destruct (clicks_use_absolute_xpath rt_all_return TC015 Hin) as [_ H].
  apply (H _ 0%nat 5000%Z Returned).
  vm_compute. tauto.
Defined.

Lemma map_fst_snoc (h : list entry) (l : list event) (e : event) :
  map fst h = l ++ [e] -> exists h' x, h = h' ++ [x] /\ fst x = e.
Proof.
  intros E. destruct h as [|a h] using rev_ind.
  - destruct l; discriminate.
  - rewrite map_app in E. simpl in E. apply app_inj_tail in E.
    destruct E as [_ E]. now exists h, a.
Qed.

(** X10.  A click is made only once the 3000 ms wait written before it has
    returned: in every log the entry right before a click, whatever the
    outcome of the click, is that wait with outcome returned. *)
Theorem click_follows_completed_wait (rt : runtime) (sc : script)
  (Hin : In sc all_scripts) h sel n t o rest :
  snd (run_file rt sc) = h ++ (EClick sel n t, o) :: rest ->
  exists h', h = h' ++ [(EWaitForTimeout 3000, Returned)].
Proof.
  intros E.
  assert (Hg : guarded None (planned_calls (sc_globals sc) (sc_body sc)) = true)
    by (each_script Hin; vm_compute; reflexivity).
  apply (log_guarded rt) in Hg.
  rewrite E, map_app in Hg. simpl in Hg.
  destruct (guarded_click _ _ _ _ _ _ _ Hg eq_refl) as [_ [[_ Hp] | [l Hl]]];
    [ discriminate | ].
  apply map_fst_snoc in Hl. destruct Hl as (h' & [e1 o1] & -> & He).
  simpl in He. subst e1. exists h'. f_equal. f_equal. f_equal.
  destruct (parses sc) eqn:Hp.
  2:{ rewrite run_file_unparsed in E by auto. destruct h'; discriminate. }
  destruct (run_file_shape rt sc Hp)
    as (k & body & closes & rb & rc & Hl & Hb & Hc & Hh & Hr & Hbt & Hct).
  rewrite Hl in E.
  destruct (locate_in_body _ _ _ _ _ E eq_refl Hct) as (rb' & Eb & _).
  pose proof (entries_before_returned _ _ _ _ _ _ _ Hb Eb) as Hret.
  apply Forall_app in Hret. destruct Hret as [_ Hret].
  inversion Hret as [|? ? Hx _]; subst. now apply Hx.
Qed.

Lemma click_follows_completed_wait_witness :
  exists h',
    firstn 11 (snd (run_file rt_no_element TC008))
      = h' ++ [(EWaitForTimeout 3000, Returned)].
Proof.
  assert (Hin : In TC008 all_scripts) by in_list.
  apply (click_follows_completed_wait rt_no_element TC008 Hin _
           "xpath=html/body/div/div/div[1]/div[2]/div[1]/div/div" 0%nat 5000%Z
           (Failed (PwTimeoutError "Timeout 5000ms exceeded."))
           (map returned [EContextClose; EBrowserClose; EPlaywrightStop])).
  vm_compute. reflexivity.
Defined.
